(** * Flight lookup: the route handler of [/api/flights] and the display
      arithmetic of [FlightCard].

    A shallow embedding of
    - the seed store [MOCK_FLIGHTS] and the handler [GET] of the API route
      (second half of [src/app/components/FlightCard.tsx]),
    - the duration arithmetic of the [FlightCard] component (first half),
    - the list keys the page [Home] hands to React,
    followed by the properties the specification states about them; then
    - [getStatusColor] of the card,
    - the URL the page fetches and what the server reads off it
      ([encodeURIComponent], the query of [new URL], [searchParams]),
    - the state and the render of the page [Home] with its [handleSearch],
    with further properties read off the code.

    ECMAScript strings are sequences of code units.  This development covers
    the code units below 256 (Basic Latin and Latin-1 Supplement), one [ascii]
    per code unit; every string of the seed store lies in that range. *)

From Stdlib Require Import ZArith Ascii Lia.
From stdpp Require Import base list strings.

Local Open Scope Z_scope.

(** ** ECMAScript string primitives *)

Module JS.

(** [String.prototype.toLowerCase] on one code unit below 256: [A]..[Z]
    (65..90) and the upper-case letters of Latin-1 (192..222, the
    multiplication sign 215 apart) move up by 32, every other unit stays. *)
Definition lowerUnit (c : ascii) : ascii :=
  let n := N_of_ascii c in
  if ((65 <=? n) && (n <=? 90) ||
      (192 <=? n) && (n <=? 222) && negb (n =? 215))%N
  then ascii_of_N (n + 32)
  else c.

Fixpoint toLowerCase (s : string) : string :=
  match s with
  | EmptyString => EmptyString
  | String c s' => String (lowerUnit c) (toLowerCase s')
  end.

(** Whether [q] occurs in [s] at index 0. *)
Fixpoint startsWith (s q : string) {struct q} : bool :=
  match q, s with
  | EmptyString, _ => true
  | String _ _, EmptyString => false
  | String a q', String b s' => Ascii.eqb a b && startsWith s' q'
  end.

(** [String.prototype.includes(q)] with the default position 0: the search of
    [StringIndexOf] tries the indices 0, 1, ... in turn and stops at the first
    one where [q] occurs; the empty [q] occurs at index 0 of every string. *)
Fixpoint includes (s q : string) : bool :=
  startsWith s q ||
  match s with
  | EmptyString => false
  | String _ s' => includes s' q
  end.

End JS.

(** ** Data model *)

Record FlightLocation := mkLocation {
  code : string;
  city : string;
  terminal : string
}.

Record Flight := mkFlight {
  flightNumber : string;
  airline : string;
  origin : FlightLocation;
  destination : FlightLocation;
  departureTime : string;
  arrivalTime : string;
  status : string;
  gate : string
}.

Definition flight_AA123 : Flight :=
  {| flightNumber := "AA123";
     airline := "American Airlines";
     origin := {| code := "JFK"; city := "New York"; terminal := "8" |};
     destination := {| code := "LHR"; city := "London"; terminal := "3" |};
     departureTime := "2025-12-08T18:00:00Z";
     arrivalTime := "2025-12-09T06:00:00Z";
     status := "On Time";
     gate := "B12" |}.

Definition flight_UA456 : Flight :=
  {| flightNumber := "UA456";
     airline := "United Airlines";
     origin := {| code := "SFO"; city := "San Francisco"; terminal := "3" |};
     destination := {| code := "NRT"; city := "Tokyo"; terminal := "1" |};
     departureTime := "2025-12-08T11:00:00Z";
     arrivalTime := "2025-12-09T15:00:00Z";
     status := "Delayed";
     gate := "G4" |}.

Definition flight_DL789 : Flight :=
  {| flightNumber := "DL789";
     airline := "Delta";
     origin := {| code := "ATL"; city := "Atlanta"; terminal := "S" |};
     destination := {| code := "CDG"; city := "Paris"; terminal := "2E" |};
     departureTime := "2025-12-08T20:30:00Z";
     arrivalTime := "2025-12-09T10:45:00Z";
     status := "Boarding";
     gate := "E14" |}.

Definition MOCK_FLIGHTS : list Flight :=
  [flight_AA123; flight_UA456; flight_DL789].

(** ** The matcher *)

(** The callback of [MOCK_FLIGHTS.filter(...)]:
    [flight.flightNumber.toLowerCase().includes(flightNumber.toLowerCase())]. *)
Definition matchesQuery (query : string) (flight : Flight) : bool :=
  JS.includes (JS.toLowerCase (flightNumber flight)) (JS.toLowerCase query).

(** [Array.prototype.filter] keeps, in order, the elements on which the
    callback is truthy. *)
Definition matchFlights (query : string) (store : list Flight) : list Flight :=
  filter (λ flight, matchesQuery query flight) store.

(** ** JSON values and [JSON.stringify] *)

#[warnings="-register-all"]
Inductive json : Type :=
| JString (s : string)
| JArray (items : list json)
| JObject (members : list (string * json)).

Module JSON.

Definition hexDigit (n : N) : ascii :=
  ascii_of_N (if (n <? 10)%N then 48 + n else 87 + n).

(** One code unit inside a quoted string ([QuoteJSONString]): the two-letter
    escapes, [\u00xx] for the other control units, the unit itself otherwise. *)
Definition quoteUnit (c : ascii) : string :=
  let n := N_of_ascii c in
  let esc (x : ascii) := String "092"%char (String x EmptyString) in
  if (n =? 8)%N then esc "b"%char
  else if (n =? 9)%N then esc "t"%char
  else if (n =? 10)%N then esc "n"%char
  else if (n =? 12)%N then esc "f"%char
  else if (n =? 13)%N then esc "r"%char
  else if (n =? 34)%N then esc "034"%char
  else if (n =? 92)%N then esc "092"%char
  else if (n <? 32)%N then
    "\u00" +:+ String (hexDigit (n / 16))
                  (String (hexDigit (n mod 16)) EmptyString)
  else String c EmptyString.

Fixpoint quoteUnits (s : string) : string :=
  match s with
  | EmptyString => EmptyString
  | String c s' => quoteUnit c +:+ quoteUnits s'
  end.

Definition quote (s : string) : string :=
  String "034"%char (quoteUnits s +:+ String "034"%char EmptyString).

(** [parts] joined by commas. *)
Fixpoint join (parts : list string) : string :=
  match parts with
  | [] => EmptyString
  | [p] => p
  | p :: rest => p +:+ "," +:+ join rest
  end.

(** [JSON.stringify(v)] without indentation; the members of an object come in
    property order. *)
Fixpoint stringify (v : json) : string :=
  match v with
  | JString s => quote s
  | JArray items => "[" +:+ join (map stringify items) +:+ "]"
  | JObject members =>
      "{" +:+ join (map (λ kv, quote kv.1 +:+ ":" +:+ stringify kv.2) members)
          +:+ "}"
  end.

End JSON.

Definition FlightLocation_toJSON (l : FlightLocation) : json :=
  JObject [("code", JString (code l));
           ("city", JString (city l));
           ("terminal", JString (terminal l))].

(** The JSON value of a flight object: its properties in creation order. *)
Definition Flight_toJSON (f : Flight) : json :=
  JObject [("flightNumber", JString (flightNumber f));
           ("airline", JString (airline f));
           ("origin", FlightLocation_toJSON (origin f));
           ("destination", FlightLocation_toJSON (destination f));
           ("departureTime", JString (departureTime f));
           ("arrivalTime", JString (arrivalTime f));
           ("status", JString (status f));
           ("gate", JString (gate f))].

Definition Flights_toJSON (flights : list Flight) : json :=
  JArray (Flight_toJSON <$> flights).

(** Property access on a parsed JSON value, as the client does it
    ([flight.flightNumber], [flight.origin.code], ...): the value under the
    key, [None] for [undefined]. *)
Fixpoint member (k : string) (members : list (string * json)) : option json :=
  match members with
  | [] => None
  | (k', v) :: rest => if decide (k' = k) then Some v else member k rest
  end.

Definition prop (k : string) (v : json) : option json :=
  match v with
  | JObject members => member k members
  | _ => None
  end.

Definition stringProp (k : string) (v : json) : option string :=
  match prop k v with
  | Some (JString s) => Some s
  | _ => None
  end.

(** The record the client reads back from a flight object of the wire. *)
Definition FlightLocation_ofJSON (v : json) : option FlightLocation :=
  c ← stringProp "code" v;
  ci ← stringProp "city" v;
  t ← stringProp "terminal" v;
  Some (mkLocation c ci t).

Definition Flight_ofJSON (v : json) : option Flight :=
  fn ← stringProp "flightNumber" v;
  al ← stringProp "airline" v;
  o ← prop "origin" v ≫= FlightLocation_ofJSON;
  d ← prop "destination" v ≫= FlightLocation_ofJSON;
  dt ← stringProp "departureTime" v;
  ar ← stringProp "arrivalTime" v;
  st ← stringProp "status" v;
  g ← stringProp "gate" v;
  Some (mkFlight fn al o d dt ar st g).

(** ** Requests, responses and the handler *)

(** [URLSearchParams]: the name/value pairs of the query string, in order. *)
Definition URLSearchParams := list (string * string).

(** [searchParams.get(name)]: the value of the first pair called [name],
    [None] for [null]. *)
Fixpoint URLSearchParams_get (params : URLSearchParams) (name : string)
  : option string :=
  match params with
  | [] => None
  | (k, v) :: rest =>
      if decide (k = name) then Some v else URLSearchParams_get rest name
  end.

(** [new URL(request.url)], already parsed. *)
Record URL := mkURL {
  pathname : string;
  searchParams : URLSearchParams
}.

Record Request := mkRequest {
  method : string;
  url : URL;
  headers : list (string * string)
}.

Record Response := mkResponse {
  statusCode : Z;
  body : json
}.

(** [NextResponse.json(data, init)]: the status is [init.status], 200 when no
    [init] is given; the body travels as [JSON.stringify(data)]. *)
Definition NextResponse_json (data : json) (init : option Z) : Response :=
  {| statusCode := default 200 init; body := data |}.

Definition bodyText (r : Response) : string := JSON.stringify (body r).

(** An [async] function as the sequence of its suspensions:
    [Delay ms k] is [await new Promise(resolve => setTimeout(resolve, ms))]
    followed by [k]; [Resolve a] is [return a]. *)
Inductive Async (A : Type) : Type :=
| Resolve (a : A)
| Delay (ms : Z) (k : Async A).
Arguments Resolve {A} a.
Arguments Delay {A} ms k.

Fixpoint resolved {A} (p : Async A) : A :=
  match p with
  | Resolve a => a
  | Delay _ k => resolved k
  end.

Fixpoint waited {A} (p : Async A) : Z :=
  match p with
  | Resolve _ => 0
  | Delay ms k => ms + waited k
  end.

(** The body of [GET], with the store it filters as a parameter. *)
Definition lookupHandler (store : list Flight) (request : Request) : Async Response :=
  let flightNumber :=
    URLSearchParams_get (searchParams (url request)) "flightNumber" in
  match flightNumber with
  | None | Some EmptyString =>          (* [!flightNumber] *)
      Resolve (NextResponse_json
                 (JObject [("error", JString "Flight number is required")])
                 (Some 400))
  | Some flightNumber =>
      let matches := matchFlights flightNumber store in
      Delay 800 (Resolve (NextResponse_json (Flights_toJSON matches) None))
  end.

(** [export async function GET(request: Request)]: the handler on the
    module's own store. *)
Definition GET (request : Request) : Async Response :=
  lookupHandler MOCK_FLIGHTS request.

(** The request the page sends for the query [q]:
    [fetch(`/api/flights?flightNumber=${encodeURIComponent(query)}`)]. *)
Definition flightsRequest (q : string) : Request :=
  {| method := "GET";
     url := {| pathname := "/api/flights";
               searchParams := [("flightNumber", q)] |};
     headers := [] |}.

(** ** Dates and the duration shown on a card *)

Module Date.

Definition digit (c : ascii) : option Z :=
  let n := N_of_ascii c in
  if ((48 <=? n) && (n <=? 57))%N then Some (Z.of_N n - 48) else None.

(** The decimal number written by [cs]. *)
Fixpoint number (acc : Z) (cs : list ascii) : option Z :=
  match cs with
  | [] => Some acc
  | c :: cs' => d ← digit c; number (10 * acc + d) cs'
  end.

Definition isLeap (y : Z) : bool :=
  ((y mod 4 =? 0) && negb (y mod 100 =? 0)) || (y mod 400 =? 0).

Definition daysInMonth (y m : Z) : Z :=
  if m =? 2 then (if isLeap y then 29 else 28)
  else if (m =? 4) || (m =? 6) || (m =? 9) || (m =? 11) then 30
  else 31.

(** Days of the year [y] before its month [m] (1..12). *)
Definition daysBeforeMonth (y m : Z) : Z :=
  foldr Z.add 0 (map (daysInMonth y) (seqZ 1 (m - 1))).

(** [DayFromYear(y)]: the day number of 1 January of [y], counted from 1970. *)
Definition DayFromYear (y : Z) : Z :=
  365 * (y - 1970) + (y - 1969) / 4 - (y - 1901) / 100 + (y - 1601) / 400.

Definition msPerDay : Z := 86400000.

(** [MakeDate(MakeDay(y, m - 1, d), MakeTime(h, mi, s, 0))]. *)
Definition utc (y m d h mi s : Z) : Z :=
  (DayFromYear y + daysBeforeMonth y m + (d - 1)) * msPerDay
  + (h * 3600000 + mi * 60000 + s * 1000).

(** [new Date(dateString).getTime()] on the form [YYYY-MM-DDTHH:mm:ssZ] of the
    ECMAScript date-time format, which is the form the store uses: the time
    value in milliseconds since the epoch.  [None] is [NaN] (a field that is
    not a number or is out of range); the other forms of the format are not
    modelled and give [None] as well. *)
Definition getTime (dateString : string) : option Z :=
  match String.list_ascii_of_string dateString with
  | [y1; y2; y3; y4; s1; m1; m2; s2; d1; d2; t; h1; h2; s3; i1; i2; s4;
     c1; c2; z] =>
      if Ascii.eqb s1 "-" && Ascii.eqb s2 "-" && Ascii.eqb t "T"
         && Ascii.eqb s3 ":" && Ascii.eqb s4 ":" && Ascii.eqb z "Z"
      then
        y ← number 0 [y1; y2; y3; y4];
        m ← number 0 [m1; m2];
        d ← number 0 [d1; d2];
        h ← number 0 [h1; h2];
        mi ← number 0 [i1; i2];
        s ← number 0 [c1; c2];
        if (1 <=? m) && (m <=? 12) && (1 <=? d) && (d <=? daysInMonth y m)
           && (mi <=? 59) && (s <=? 59)
           && ((h <=? 23) || (h =? 24) && (mi =? 0) && (s =? 0))
        then Some (utc y m d h mi s)
        else None
      else None
  | _ => None
  end.

End Date.

(** The duration arithmetic of [FlightCard]: [durationMs], [hours] and
    [minutes].  On integers of this size the quotient of two doubles, floored,
    is the floor quotient; [%] is the remainder that takes the sign of the
    dividend. *)
Definition durationMs (flight : Flight) : option Z :=
  arrival ← Date.getTime (arrivalTime flight);
  departure ← Date.getTime (departureTime flight);
  Some (arrival - departure).

Definition hours (flight : Flight) : option Z :=
  (λ ms, ms / 3600000) <$> durationMs flight.

Definition minutes (flight : Flight) : option Z :=
  (λ ms, Z.rem ms 3600000 / 60000) <$> durationMs flight.

(** ** The page *)

(** The keys of the cards [Home] renders, one per flight of its list:
    [flights.map((flight) => <FlightCard key={flight.flightNumber} ... />)]. *)
Definition cardKeys (flights : list Flight) : list string :=
  flightNumber <$> flights.

(** ** Vocabulary of the statements and example inputs *)

(** [q] occurs in [s]: some units, then [q], then some units. *)
Definition occursIn (q s : string) : Prop :=
  ∃ pre post : string, s = pre +:+ q +:+ post.

(** The flights of [flights] whose number is [n], in order. *)
Definition withNumber (n : string) (flights : list Flight) : list Flight :=
  filter (λ f, flightNumber f = n) flights.

(** The response to a request without a flight number. *)
Definition missingParameter : Response :=
  {| statusCode := 400;
     body := JObject [("error", JString "Flight number is required")] |}.

(** The text [{"error":"Flight number is required"}]. *)
Definition missingParameterText : string :=
  let dq := String "034"%char EmptyString in
  "{" +:+ dq +:+ "error" +:+ dq +:+ ":" +:+
  dq +:+ "Flight number is required" +:+ dq +:+ "}".

(** The property names of a flight object of the wire, in order. *)
Definition flightKeys : list string :=
  ["flightNumber"; "airline"; "origin"; "destination";
   "departureTime"; "arrivalTime"; "status"; "gate"].

(** A second record numbered [AA123], for a store with a repeated number. *)
Definition flight_twin : Flight :=
  {| flightNumber := "AA123";
     airline := "Charter";
     origin := origin flight_DL789;
     destination := destination flight_DL789;
     departureTime := "2025-12-10T07:00:00Z";
     arrivalTime := "2025-12-10T09:00:00Z";
     status := "Delayed";
     gate := "A1" |}.

(** A request with other state around an empty [flightNumber]. *)
Definition strayRequest : Request :=
  {| method := "GET";
     url := {| pathname := "/api/flights";
               searchParams := [("flight", "AA123"); ("flightNumber", "");
                                ("flightNumber", "AA123")] |};
     headers := [("accept", "text/html")] |}.

(** Every code unit of the model. *)
Definition allUnits : list ascii := ascii_of_nat <$> seq 0 256.

(** The text [pr a] can be read back off the front of any text that starts
    with it. *)
Definition decodable {A : Type} (pr : A → string) (a : A) : Prop :=
  ∀ a' r r', pr a +:+ r = pr a' +:+ r' → a = a' ∧ r = r'.

(** ** The status colour of a card *)

(** [getStatusColor]: a [switch] on the status; the cases are compared with
    [===], unit for unit. *)
Definition getStatusColor (status : string) : string :=
  if decide (status = "Delayed") then "var(--destructive, #ff4444)"
  else if decide (status = "Boarding") then "var(--warning, #ffbb33)"
  else "var(--success, #00C851)".

(** ** More string primitives *)

Module Text.

(** The code units of a string. *)
Definition units (s : string) : list ascii := String.list_ascii_of_string s.

(** [s] without its longest prefix of units satisfying [p]. *)
Fixpoint dropStart (p : ascii → bool) (s : string) : string :=
  match s with
  | EmptyString => EmptyString
  | String c s' => if p c then dropStart p s' else s
  end.

(** [s] without its longest suffix of units satisfying [p]. *)
Fixpoint dropEnd (p : ascii → bool) (s : string) : string :=
  match s with
  | EmptyString => EmptyString
  | String c s' =>
      match dropEnd p s' with
      | EmptyString => if p c then EmptyString else String c EmptyString
      | String _ _ as t => String c t
      end
  end.

(** The units of [s] that do not satisfy [p]. *)
Fixpoint remove (p : ascii → bool) (s : string) : string :=
  match s with
  | EmptyString => EmptyString
  | String c s' => if p c then remove p s' else String c (remove p s')
  end.

(** [WhiteSpace] and [LineTerminator] below 256: tab, line feed, vertical tab,
    form feed, carriage return, space and the no-break space. *)
Definition isWhiteSpace (c : ascii) : bool :=
  let n := N_of_ascii c in
  ((9 <=? n) && (n <=? 13) || (n =? 32) || (n =? 160))%N.

(** [String.prototype.trim]. *)
Definition trim (s : string) : string :=
  dropEnd isWhiteSpace (dropStart isWhiteSpace s).

End Text.

(** ** From the page to the handler: the URL of a search *)

Module URI.

Definition isAlphaNum (n : N) : bool :=
  ((48 <=? n) && (n <=? 57) || (65 <=? n) && (n <=? 90) ||
   (97 <=? n) && (n <=? 122))%N.

(** [uriUnescaped]: letters, digits and the marks [-], [_], [.], [!], [~],
    [*], the single quote and the two parentheses. *)
Definition isUnescaped (c : ascii) : bool :=
  let n := N_of_ascii c in
  isAlphaNum n || existsb (N.eqb n) [45; 95; 46; 33; 126; 42; 39; 40; 41]%N.

Definition hexUpper (n : N) : ascii :=
  ascii_of_N (if (n <? 10)%N then 48 + n else 55 + n).

(** The escape [%XY] of one byte. *)
Definition escape (b : N) : string :=
  String "%" (String (hexUpper (b / 16)) (String (hexUpper (b mod 16)) EmptyString)).

(** The UTF-8 bytes of a code point below 256. *)
Definition utf8 (n : N) : list N :=
  if (n <? 128)%N then [n] else [192 + n / 64; 128 + n mod 64]%N.

(** The escapes of the UTF-8 bytes of one unit. *)
Definition escapeUnit (c : ascii) : string :=
  foldr (λ b rest, escape b +:+ rest) EmptyString (utf8 (N_of_ascii c)).

Definition encodeUnit (c : ascii) : string :=
  if isUnescaped c then String c EmptyString else escapeUnit c.

(** [encodeURIComponent]; below 256 there are no surrogates, so it never
    throws. *)
Fixpoint encodeURIComponent (s : string) : string :=
  match s with
  | EmptyString => EmptyString
  | String c s' => encodeUnit c +:+ encodeURIComponent s'
  end.

(** *** The URL parser, as far as the query goes *)

Definition isC0OrSpace (c : ascii) : bool := (N_of_ascii c <=? 32)%N.

Definition isTabOrNewline (c : ascii) : bool :=
  let n := N_of_ascii c in ((n =? 9) || (n =? 10) || (n =? 13))%N.

(** What the parser does to its input first: leading and trailing C0 controls
    and spaces go, then every tab and newline. *)
Definition preprocess (input : string) : string :=
  Text.remove isTabOrNewline
    (Text.dropEnd isC0OrSpace (Text.dropStart isC0OrSpace input)).

Fixpoint untilHash (s : string) : string :=
  match s with
  | EmptyString => EmptyString
  | String c s' => if Ascii.eqb c "#" then EmptyString else String c (untilHash s')
  end.

(** The units the query state reads: what follows the first [?], up to the
    first [#]; nothing when a [#] comes first or there is no [?]. *)
Fixpoint rawQuery (s : string) : string :=
  match s with
  | EmptyString => EmptyString
  | String c s' =>
      if Ascii.eqb c "?" then untilHash s'
      else if Ascii.eqb c "#" then EmptyString
      else rawQuery s'
  end.

(** The special-query percent-encode set: C0 controls, space, the units above
    [~], the double quote, [#], [<], [>] and the single quote. *)
Definition inQuerySet (c : ascii) : bool :=
  let n := N_of_ascii c in
  ((n <=? 32) || (126 <? n)
   || existsb (N.eqb n) [34; 35; 60; 62; 39])%N.

Definition queryUnit (c : ascii) : string :=
  if inQuerySet c then escapeUnit c else String c EmptyString.

(** The query state of the parser: units of the set are escaped, the others
    (a [%] too) are kept. *)
Fixpoint queryState (s : string) : string :=
  match s with
  | EmptyString => EmptyString
  | String c s' => queryUnit c +:+ queryState s'
  end.

(** The query of [new URL(input)] for an [http] URL or a path relative to
    one, without its [?]. *)
Definition query (input : string) : string :=
  queryState (rawQuery (preprocess input)).

(** *** The [application/x-www-form-urlencoded] parser of [searchParams] *)

(** [s] cut at every [sep]. *)
Fixpoint splitOn (sep : ascii) (s : string) : list string :=
  match s with
  | EmptyString => [EmptyString]
  | String c s' =>
      if Ascii.eqb c sep then EmptyString :: splitOn sep s'
      else match splitOn sep s' with
           | [] => [String c EmptyString]
           | piece :: pieces => String c piece :: pieces
           end
  end.

(** Name and value of a sequence: cut at its first [=]; all of it is the name
    when it has none. *)
Fixpoint nameValue (s : string) : string * string :=
  match s with
  | EmptyString => (EmptyString, EmptyString)
  | String c s' =>
      if Ascii.eqb c "=" then (EmptyString, s')
      else let '(name, value) := nameValue s' in (String c name, value)
  end.

Fixpoint plusToSpace (s : string) : string :=
  match s with
  | EmptyString => EmptyString
  | String c s' => String (if Ascii.eqb c "+" then " "%char else c) (plusToSpace s')
  end.

Definition hexValue (c : ascii) : option N :=
  let n := N_of_ascii c in
  if ((48 <=? n) && (n <=? 57))%N then Some (n - 48)%N
  else if ((65 <=? n) && (n <=? 70))%N then Some (n - 55)%N
  else if ((97 <=? n) && (n <=? 102))%N then Some (n - 87)%N
  else None.

(** Percent-decoding: [%] followed by two hex digits is the byte they write;
    every other unit, a stray [%] too, is itself. *)
Fixpoint percentDecode (s : string) : string :=
  match s with
  | EmptyString => EmptyString
  | String c s1 =>
      let keep := String c (percentDecode s1) in
      if Ascii.eqb c "%" then
        match s1 with
        | String h (String l s3) =>
            match hexValue h, hexValue l with
            | Some a, Some b => String (ascii_of_N (16 * a + b)) (percentDecode s3)
            | _, _ => keep
            end
        | _ => keep
        end
      else keep
  end.

(** UTF-8 decoding of bytes into units below 256: a byte below 128 is itself,
    [0xC2] or [0xC3] with a continuation byte is a unit from 128 to 255.
    [None]: the bytes decode to a code point that is not below 256 (the
    replacement character for ill-formed bytes included). *)
Fixpoint utf8Decode (bytes : string) : option string :=
  match bytes with
  | EmptyString => Some EmptyString
  | String b rest =>
      let n := N_of_ascii b in
      if (n <? 128)%N then String b <$> utf8Decode rest
      else if ((n =? 194) || (n =? 195))%N then
        match rest with
        | String b2 rest2 =>
            let m := N_of_ascii b2 in
            if ((128 <=? m) && (m <=? 191))%N
            then String (ascii_of_N ((n - 192) * 64 + (m - 128))) <$> utf8Decode rest2
            else None
        | EmptyString => None
        end
      else None
  end.

(** A unit that every stage between the page and the handler leaves alone:
    outside the query set, and neither [&] nor [+]. *)
Definition untouched (c : ascii) : bool :=
  negb (inQuerySet c) && negb (Ascii.eqb c "&") && negb (Ascii.eqb c "+").

Definition decode (s : string) : option string :=
  utf8Decode (percentDecode (plusToSpace s)).

Definition parsePair (sequence : string) : option (string * string) :=
  let '(name, value) := nameValue sequence in
  n ← decode name; v ← decode value; Some (n, v).

(** The pairs of a query string: its non-empty pieces between [&]. *)
Definition parse (query : string) : option URLSearchParams :=
  mapM parsePair (filter (λ piece, piece ≠ EmptyString) (splitOn "&" query)).

End URI.

(** The URL [handleSearch] fetches:
    [`/api/flights?flightNumber=${encodeURIComponent(query)}`]. *)
Definition searchURL (query : string) : string :=
  "/api/flights?flightNumber=" +:+ URI.encodeURIComponent query.

(** [new URL(request.url).searchParams] on the server, for a fetch of [href]
    from the page: the client parses [href] and sends path and query; the
    server parses them again (the scheme and host in front of the path hold
    no [?] and no [#], and are left out). *)
Definition receivedParams (href : string) : option URLSearchParams :=
  URI.parse (URI.query ("/api/flights?" +:+ URI.query href)).

(** ** The page [Home] *)

Module Home.

(** The state of the component: [query], [flights] (typed [any[]], so any
    JSON value the server sent), [loading], [error] and [hasSearched]. *)
Record State := mkState {
  query : string;
  flights : json;
  loading : bool;
  error : string;
  hasSearched : bool
}.

(** The initial values of the five [useState] calls. *)
Definition initial : State :=
  {| query := EmptyString; flights := JArray []; loading := false;
     error := EmptyString; hasSearched := false |}.

(** [onChange={(e) => setQuery(e.target.value)}]. *)
Definition setQuery (value : string) (st : State) : State :=
  {| query := value; flights := flights st; loading := loading st;
     error := error st; hasSearched := hasSearched st |}.

(** How [await fetch(url)] ends: the promise is rejected, or it is fulfilled
    with a response of some status whose body is JSON text for [data]
    ([Some data]) or is not JSON ([None]: [res.json()] is rejected). *)
Inductive FetchResult :=
| Rejected
| Fulfilled (status : Z) (data : option json).

(** [res.ok]: the status is in the range 200-299. *)
Definition ok (status : Z) : bool := (200 <=? status) && (status <=? 299).

Definition failureMessage : string :=
  "An error occurred while fetching flight details.".

(** The state after the four updates that precede the [await]. *)
Definition pending (st : State) : State :=
  {| query := query st; flights := JArray []; loading := true;
     error := EmptyString; hasSearched := true |}.

(** The state once the [catch] block has run, and [finally] after it. *)
Definition failed (st : State) : State :=
  {| query := query st; flights := flights st; loading := false;
     error := failureMessage; hasSearched := hasSearched st |}.

(** The state after [try], [catch] and [finally], from the pending state
    [st]: [setFlights(data)] when the response is [ok] and its body parses,
    the [catch] block otherwise. *)
Definition settled (st : State) (result : FetchResult) : State :=
  match result with
  | Rejected => failed st
  | Fulfilled status data =>
      if ok status then
        match data with
        | Some data =>
            {| query := query st; flights := data; loading := false;
               error := error st; hasSearched := hasSearched st |}
        | None => failed st
        end
      else failed st
  end.

(** [handleSearch]: the states the component goes through, given what
    [fetch] does; none, and no request, when the query is blank. *)
Definition handleSearch (fetch : string → FetchResult) (st : State)
  : list State :=
  if decide (Text.trim (query st) = EmptyString) then []
  else [pending st; settled (pending st) (fetch (searchURL (query st)))].

(** The state [handleSearch] leaves the component in. *)
Definition after (fetch : string → FetchResult) (st : State) : State :=
  default st (last (handleSearch fetch st)).

(** What the component shows: the search button, the error banner, the
    notice that nothing was found, and the cards with their keys. *)
Record View := mkView {
  buttonDisabled : bool;
  buttonLabel : string;
  banner : option string;
  notice : option string;
  cards : list (option json * json)
}.

Definition noticeText (query : string) : string :=
  "No flights found matching " +:+ String "034" (query +:+ String "034" EmptyString).

(** The render of [Home].  [flights.map] exists on arrays only: on any other
    value the render throws ([None]). *)
Definition render (st : State) : option View :=
  match flights st with
  | JArray items =>
      Some {| buttonDisabled := loading st;
              buttonLabel := if loading st then "..." else "Search";
              banner := if decide (error st = EmptyString) then None
                        else Some (error st);
              notice :=
                if hasSearched st && negb (loading st)
                   && Nat.eqb (length items) 0
                   && bool_decide (error st = EmptyString)
                then Some (noticeText (query st)) else None;
              cards := (λ flight, (prop "flightNumber" flight, flight)) <$> items |}
  | _ => None
  end.

(** Whether the [try] block throws on what [fetch] gave. *)
Definition throws (result : FetchResult) : bool :=
  match result with
  | Rejected => true
  | Fulfilled status data => negb (ok status) || bool_decide (data = None)
  end.

(** The view of a page whose search for [query] found [found]. *)
Definition resultView (query : string) (found : list Flight) : View :=
  {| buttonDisabled := false;
     buttonLabel := "Search";
     banner := None;
     notice := match found with
               | [] => Some (noticeText query)
               | _ :: _ => None
               end;
     cards := (λ f, (Some (JString (flightNumber f)), Flight_toJSON f)) <$> found |}.

(** The view of a page whose search failed. *)
Definition failureView : View :=
  {| buttonDisabled := false;
     buttonLabel := "Search";
     banner := Some failureMessage;
     notice := None;
     cards := [] |}.

End Home.

(** [fetch] answered by the handler over [store]: the response to the request
    the server receives for [href]. *)
Definition answeredBy (store : list Flight) (href : string)
  : option Home.FetchResult :=
  params ← receivedParams href;
  let request := {| method := "GET";
                    url := {| pathname := "/api/flights";
                              searchParams := params |};
                    headers := [] |} in
  let response := resolved (lookupHandler store request) in
  Some (Home.Fulfilled (statusCode response) (Some (body response))).

(** ** More example inputs *)

(** A [fetch] that the handler on the seed store answers; a URL it cannot
    read is rejected. *)
Definition fetchFromSeed (href : string) : Home.FetchResult :=
  default Home.Rejected (answeredBy MOCK_FLIGHTS href).

(** A server that answers every request like a request without a flight
    number. *)
Definition fetchRefused (href : string) : Home.FetchResult :=
  Home.Fulfilled (statusCode missingParameter) (Some (body missingParameter)).


(** A record that arrives before it departs. *)
Definition flight_backwards : Flight :=
  {| flightNumber := "ZZ1";
     airline := "Nowhere Air";
     origin := origin flight_AA123;
     destination := destination flight_AA123;
     departureTime := "2025-12-09T06:00:00Z";
     arrivalTime := "2025-12-09T04:29:30Z";
     status := "delayed";
     gate := "C3" |}.

(** * Properties *)

(** ** The model on concrete inputs *)

Example toLowerCase_AA123 : JS.toLowerCase "AA123" = "aa123".
Proof. reflexivity. Qed.

Example toLowerCase_other_units : JS.toLowerCase "Dl-789 [Z]@`{" = "dl-789 [z]@`{".
Proof. reflexivity. Qed.

Example includes_inside : JS.includes "aa123" "a1" = true.
Proof. reflexivity. Qed.

Example includes_not_a_subsequence : JS.includes "aa123" "a3" = false.
Proof. reflexivity. Qed.

Example includes_longer : JS.includes "aa" "aa1" = false.
Proof. reflexivity. Qed.

Example get_first_value :
  URLSearchParams_get [("a", "1"); ("flightNumber", "x"); ("flightNumber", "y")]
    "flightNumber" = Some "x".
Proof. reflexivity. Qed.

Example get_absent : URLSearchParams_get [("flightnumber", "x")] "flightNumber" = None.
Proof. reflexivity. Qed.

Example getTime_epoch : Date.getTime "1970-01-01T00:00:00Z" = Some 0.
Proof. reflexivity. Qed.

Example getTime_leap_day :
  Date.getTime "2024-02-29T12:00:00Z" = Some 1709208000000 ∧
  Date.getTime "2025-02-29T12:00:00Z" = None.
Proof. by vm_compute. Qed.

Example getTime_AA123_departure :
  Date.getTime (departureTime flight_AA123) = Some 1765216800000.
Proof. by vm_compute. Qed.

Example stringify_escapes :
  JSON.stringify (JArray [JString (String "010" "a\b"); JObject []])
  = "[" +:+ String "034" "\na\\b" +:+ String "034" ",{}]".
Proof. reflexivity. Qed.

Example GET_DL789_waits : waited (GET (flightsRequest "dl7")) = 800.
Proof. reflexivity. Qed.

(** ** Substring search *)

Section substring.

Local Open Scope bool_scope.

Lemma startsWith_app (q post : string) : JS.startsWith (q +:+ post) q = true.
Proof.
  induction q as [|a q IH]; simpl; [done|].
  by rewrite Ascii.eqb_refl, IH.
Qed.

Lemma startsWith_inv (s q : string) :
  JS.startsWith s q = true → ∃ post, s = q +:+ post.
Proof.
  revert s; induction q as [|a q IH]; intros s Hs; simpl in *.
  - by exists s.
  - destruct s as [|b s]; [done|].
    apply andb_true_iff in Hs as [Hab Hs].
    apply Ascii.eqb_eq in Hab as ->.
    destruct (IH _ Hs) as [post ->]. by exists post.
Qed.

Lemma startsWith_spec (s q : string) :
  JS.startsWith s q = true ↔ ∃ post, s = q +:+ post.
Proof.
  split; [apply startsWith_inv|].
  intros [post ->]. apply startsWith_app.
Qed.

Lemma includes_unfold (s q : string) :
  JS.includes s q =
  JS.startsWith s q ||
  match s with EmptyString => false | String _ s' => JS.includes s' q end.
Proof. by destruct s. Qed.

Lemma includes_spec (s q : string) :
  JS.includes s q = true ↔ occursIn q s.
Proof.
  unfold occursIn. split.
  - induction s as [|b s IH]; rewrite includes_unfold; intros H;
      apply orb_true_iff in H as [H|H]; try done.
    + apply startsWith_inv in H as [post ->]. by exists EmptyString, post.
    + apply startsWith_inv in H as [post ->]. by exists EmptyString, post.
    + destruct (IH H) as (pre & post & ->). by exists (String b pre), post.
  - intros (pre & post & ->).
    induction pre as [|b pre IH].
    + change (EmptyString +:+ q +:+ post) with (q +:+ post).
      by rewrite includes_unfold, startsWith_app.
    + change (String b pre +:+ q +:+ post) with (String b (pre +:+ q +:+ post)).
      rewrite includes_unfold, IH. apply orb_true_r.
Qed.

Lemma includes_empty (s : string) : JS.includes s EmptyString = true.
Proof. rewrite includes_unfold. by destruct s. Qed.

End substring.

(** ** The matcher *)

Lemma elem_of_matchFlights (q : string) (store : list Flight) (f : Flight) :
  f ∈ matchFlights q store ↔ matchesQuery q f = true ∧ f ∈ store.
Proof.
  unfold matchFlights. rewrite list_elem_of_filter.
  by rewrite Is_true_true.
Qed.

(** C1. For a non-empty query [q] and a flight [f] of the store, [f] is in
    [matchFlights q store] exactly when the lower-cased flight number of [f]
    contains the lower-cased [q] as a substring: somewhere, unanchored, unit
    for unit. *)
Theorem matchFlights_iff_occursIn (q : string) (store : list Flight) (f : Flight) :
  q ≠ EmptyString →
  f ∈ store →
  (f ∈ matchFlights q store ↔
   occursIn (JS.toLowerCase q) (JS.toLowerCase (flightNumber f))).
Proof.
  intros _ Hf. rewrite elem_of_matchFlights.
  unfold matchesQuery. rewrite includes_spec. tauto.
Qed.

Lemma matchFlights_iff_occursIn_witness :
  "aa" ≠ EmptyString ∧ flight_AA123 ∈ MOCK_FLIGHTS ∧
  (flight_AA123 ∈ matchFlights "aa" MOCK_FLIGHTS ↔
   occursIn (JS.toLowerCase "aa") (JS.toLowerCase (flightNumber flight_AA123))).
Proof.
  assert (Hq : "aa" ≠ EmptyString) by discriminate.
  assert (Hf : flight_AA123 ∈ MOCK_FLIGHTS) by (apply list_elem_of_here).
  exact (conj Hq (conj Hf (matchFlights_iff_occursIn "aa" MOCK_FLIGHTS flight_AA123 Hq Hf))).
Defined.

Lemma matchFlights_cons (q : string) (f : Flight) (store : list Flight) :
  matchFlights q (f :: store) =
  if matchesQuery q f then f :: matchFlights q store else matchFlights q store.
Proof.
  unfold matchFlights. rewrite filter_cons.
  destruct (matchesQuery q f); by case_decide.
Qed.

Lemma matchFlights_app (q : string) (s1 s2 : list Flight) :
  matchFlights q (s1 ++ s2) = matchFlights q s1 ++ matchFlights q s2.
Proof. apply filter_app. Qed.

Lemma matchFlights_all (q : string) (store : list Flight) :
  Forall (λ f, matchesQuery q f = true) store → matchFlights q store = store.
Proof.
  induction 1 as [|f store Hf _ IH]; [done|].
  by rewrite matchFlights_cons, Hf, IH.
Qed.

(** C3. The result of [matchFlights] is a subsequence of the store: the
    matched flights, in store order, nothing re-ranked.  Matching is a
    function of the query and the store alone, so a repeated call gives the
    same sequence; and matching the result again changes nothing. *)
Theorem matchFlights_order_idempotent (q : string) (store : list Flight) :
  matchFlights q store `sublist_of` store ∧
  matchFlights q (matchFlights q store) = matchFlights q store ∧
  (∀ (i j : nat) (f g : Flight),
      (i < j)%nat →
      matchFlights q store !! i = Some f →
      matchFlights q store !! j = Some g →
      ∃ i' j' : nat, (i' < j')%nat ∧ store !! i' = Some f ∧ store !! j' = Some g).
Proof.
  assert (Hsub : matchFlights q store `sublist_of` store)
    by apply sublist_filter.
  split_and!; [done| |].
  - apply matchFlights_all, Forall_forall. intros f Hf.
    by apply elem_of_matchFlights in Hf as [? _].
  - revert Hsub. generalize (matchFlights q store). intros m Hsub.
    induction Hsub as [|x m l Hsub IH|x m l Hsub IH]; intros i j f g Hij Hi Hj.
    + done.
    + destruct j as [|j]; [lia|]. destruct i as [|i]; simpl in *.
      * simplify_eq. apply list_elem_of_lookup_2 in Hj.
        apply (sublist_subseteq _ _ Hsub) in Hj.
        apply list_elem_of_lookup_1 in Hj as [j' Hj'].
        exists 0%nat, (S j'). split_and!; [lia|done|done].
      * destruct (IH i j f g) as (i' & j' & ? & ? & ?); [lia|done|done|].
        exists (S i'), (S j'). split_and!; [lia|done|done].
    + destruct (IH i j f g) as (i' & j' & ? & ? & ?); [done..|].
      exists (S i'), (S j'). split_and!; [lia|done|done].
Qed.

(** C6. On the empty query the matcher returns the whole store: the empty
    string occurs in every string.  (The handler never calls the matcher with
    it; this is about [matchFlights] itself.) *)
Theorem matchFlights_empty_query (store : list Flight) :
  matchFlights EmptyString store = store.
Proof.
  apply matchFlights_all, Forall_forall. intros f _.
  unfold matchesQuery. apply includes_empty.
Qed.

(** C7. Flight numbers need not be unique for matching: when the query
    matches the number [n], the result holds every record of the store
    numbered [n], as often and in the order the store holds them. *)
Theorem matchFlights_keeps_duplicates (q n : string) (store : list Flight) :
  JS.includes (JS.toLowerCase n) (JS.toLowerCase q) = true →
  (∀ f, f ∈ store → flightNumber f = n → f ∈ matchFlights q store) ∧
  withNumber n (matchFlights q store) = withNumber n store.
Proof.
  intros Hn. split.
  - intros f Hf <-. by apply elem_of_matchFlights.
  - unfold withNumber, matchFlights.
    rewrite list_filter_filter. apply list_filter_iff.
    intros f. split; [tauto|].
    intros <-. split; [done|]. by apply Is_true_true.
Qed.

Lemma matchFlights_keeps_duplicates_witness :
  JS.includes (JS.toLowerCase "AA123") (JS.toLowerCase "a1") = true ∧
  withNumber "AA123"
    (matchFlights "a1" [flight_AA123; flight_UA456; flight_twin; flight_AA123]) =
  [flight_AA123; flight_twin; flight_AA123].
Proof.
  split; [reflexivity|].
  rewrite (proj2 (matchFlights_keeps_duplicates "a1" "AA123"
                    [flight_AA123; flight_UA456; flight_twin; flight_AA123]
                    eq_refl)).
  reflexivity.
Defined.

(** ** The handler *)

(** C2. A request whose [flightNumber] parameter is absent or empty is
    answered at once with status 400 and the body
    [{"error":"Flight number is required"}], whatever the store holds (the
    matcher has no part in the answer) and whatever else the request
    carries. *)
Theorem lookup_missing_parameter (store : list Flight) (request : Request) :
  URLSearchParams_get (searchParams (url request)) "flightNumber" = None ∨
  URLSearchParams_get (searchParams (url request)) "flightNumber"
    = Some EmptyString →
  lookupHandler store request = Resolve missingParameter ∧
  GET request = Resolve missingParameter ∧
  waited (GET request) = 0 ∧
  statusCode (resolved (GET request)) = 400 ∧
  bodyText (resolved (GET request)) = missingParameterText.
Proof.
  intros Hget. unfold GET.
  assert (Hl : ∀ st, lookupHandler st request = Resolve missingParameter).
  { intros st. unfold lookupHandler. by destruct Hget as [-> | ->]. }
  rewrite !Hl. done.
Qed.

Lemma lookup_missing_parameter_witness :
  URLSearchParams_get (searchParams (url strayRequest)) "flightNumber"
  = Some EmptyString ∧
  lookupHandler [flight_twin] strayRequest = Resolve missingParameter ∧
  GET strayRequest = Resolve missingParameter ∧
  waited (GET strayRequest) = 0 ∧
  statusCode (resolved (GET strayRequest)) = 400 ∧
  bodyText (resolved (GET strayRequest)) = missingParameterText.
Proof.
  split; [reflexivity|].
  exact (lookup_missing_parameter [flight_twin] strayRequest
           (or_intror eq_refl)).
Defined.

Lemma lookup_well_formed (store : list Flight) (request : Request) (q : string) :
  URLSearchParams_get (searchParams (url request)) "flightNumber" = Some q →
  q ≠ EmptyString →
  lookupHandler store request =
  Delay 800 (Resolve {| statusCode := 200;
                          body := Flights_toJSON (matchFlights q store) |}).
Proof.
  intros Hget Hq. unfold lookupHandler. rewrite Hget. by destruct q.
Qed.

(** C4. A request with a non-empty [flightNumber] that matches no record is
    answered, after the delay, with status 200 and the empty array, not with
    an error; the query [ZZ999] on the seed store is such a request. *)
Theorem lookup_no_match :
  (∀ (store : list Flight) (request : Request) (q : string),
      URLSearchParams_get (searchParams (url request)) "flightNumber" = Some q →
      q ≠ EmptyString →
      matchFlights q store = [] →
      lookupHandler store request
      = Delay 800 (Resolve {| statusCode := 200; body := JArray [] |}) ∧
      bodyText (resolved (lookupHandler store request)) = "[]") ∧
  matchFlights "ZZ999" MOCK_FLIGHTS = [] ∧
  GET (flightsRequest "ZZ999")
  = Delay 800 (Resolve {| statusCode := 200; body := JArray [] |}) ∧
  bodyText (resolved (GET (flightsRequest "ZZ999"))) = "[]".
Proof.
  split; [|done].
  intros store request q Hget Hq Hnone.
  rewrite (lookup_well_formed store request q Hget Hq), Hnone. done.
Qed.

Lemma lookup_no_match_witness :
  URLSearchParams_get (searchParams (url (flightsRequest "23 "))) "flightNumber"
  = Some "23 " ∧
  "23 " ≠ EmptyString ∧
  matchFlights "23 " [flight_twin; flight_DL789] = [] ∧
  lookupHandler [flight_twin; flight_DL789] (flightsRequest "23 ")
  = Delay 800 (Resolve {| statusCode := 200; body := JArray [] |}) ∧
  bodyText (resolved (lookupHandler [flight_twin; flight_DL789]
                        (flightsRequest "23 ")))
  = "[]".
Proof.
  assert (Hq : "23 " ≠ EmptyString) by discriminate.
  split_and!; [reflexivity|exact Hq|reflexivity|..];
    apply (proj1 lookup_no_match [flight_twin; flight_DL789]
             (flightsRequest "23 ") "23 " eq_refl Hq eq_refl).
Defined.

(** C5. On the seed store the query [AA123] returns exactly one record, the
    one numbered [AA123]; the query [aa] returns a result that includes it. *)
Theorem seed_scenarios :
  (∃ f, matchFlights "AA123" MOCK_FLIGHTS = [f] ∧ flightNumber f = "AA123") ∧
  resolved (GET (flightsRequest "AA123"))
  = {| statusCode := 200; body := JArray [Flight_toJSON flight_AA123] |} ∧
  (∃ f, f ∈ matchFlights "aa" MOCK_FLIGHTS ∧ flightNumber f = "AA123") ∧
  (∃ v, body (resolved (GET (flightsRequest "aa"))) = JArray [v] ∧
        stringProp "flightNumber" v = Some "AA123").
Proof.
  split_and!.
  - by exists flight_AA123.
  - reflexivity.
  - exists flight_AA123. split; [|done]. apply list_elem_of_here.
  - by exists (Flight_toJSON flight_AA123).
Qed.

(** ** [JSON.stringify] loses nothing *)

Lemma append_cons (x : ascii) (a b : string) :
  String x a +:+ b = String x (a +:+ b).
Proof. reflexivity. Qed.

Lemma append_nil_l (b : string) : EmptyString +:+ b = b.
Proof. reflexivity. Qed.

Lemma append_assoc (a b c : string) : (a +:+ b) +:+ c = a +:+ b +:+ c.
Proof.
  induction a as [|x a IH]; [done|]. by rewrite !append_cons, IH.
Qed.

Lemma append_nil_r (a : string) : a +:+ EmptyString = a.
Proof.
  induction a as [|x a IH]; [done|]. by rewrite append_cons, IH.
Qed.

(** Brings the text of a hypothesis to the form [String c (a +:+ ...)]. *)
Ltac append_norm H :=
  rewrite ?append_cons, ?append_assoc, ?append_cons, ?append_nil_l in H.

Lemma elem_of_allUnits (c : ascii) : In c allUnits.
Proof.
  unfold allUnits. apply list_elem_of_In, list_elem_of_fmap.
  exists (nat_of_ascii c). split; [by rewrite ascii_nat_embedding|].
  apply elem_of_seq. pose proof (nat_ascii_bounded c). lia.
Qed.

(** Two texts with a common extension: one starts with the other. *)
Lemma append_eq_startsWith (a b x y : string) :
  a +:+ x = b +:+ y → JS.startsWith b a = true ∨ JS.startsWith a b = true.
Proof.
  revert b; induction a as [|c a IH]; intros [|d b] H; simpl; auto.
  rewrite !append_cons in H. injection H as -> H.
  rewrite Ascii.eqb_refl. simpl. eauto.
Qed.

Lemma quoteUnit_prefix_free (c c' : ascii) :
  JS.startsWith (JSON.quoteUnit c') (JSON.quoteUnit c) = true → c = c'.
Proof.
  assert (Hall : forallb (λ c, forallb (λ c',
            implb (JS.startsWith (JSON.quoteUnit c') (JSON.quoteUnit c))
                  (Ascii.eqb c c')) allUnits) allUnits = true)
    by (vm_compute; reflexivity).
  rewrite forallb_forall in Hall.
  specialize (Hall c (elem_of_allUnits c)).
  rewrite forallb_forall in Hall.
  specialize (Hall c' (elem_of_allUnits c')).
  intros H. rewrite H in Hall. by apply Ascii.eqb_eq.
Qed.

Lemma quoteUnit_code (c c' : ascii) (x x' : string) :
  JSON.quoteUnit c +:+ x = JSON.quoteUnit c' +:+ x' → c = c' ∧ x = x'.
Proof.
  intros H.
  assert (c = c') as <-.
  { destruct (append_eq_startsWith _ _ _ _ H) as [Hp|Hp];
      apply quoteUnit_prefix_free in Hp; done. }
  split; [done|]. by apply (inj (String.app _)) in H.
Qed.

Lemma quoteUnit_head (c : ascii) (x : string) :
  ∃ a rest, JSON.quoteUnit c +:+ x = String a rest ∧ a ≠ "034"%char.
Proof.
  assert (Hall : forallb (λ c, match JSON.quoteUnit c with
                               | String a _ => negb (Ascii.eqb a "034")
                               | EmptyString => false
                               end) allUnits = true)
    by (vm_compute; reflexivity).
  rewrite forallb_forall in Hall.
  specialize (Hall c (elem_of_allUnits c)).
  destruct (JSON.quoteUnit c) as [|a rest]; [done|].
  exists a, (rest +:+ x). split; [done|].
  intros ->. by rewrite Ascii.eqb_refl in Hall.
Qed.

Lemma quoteUnits_decode (s s' r r' : string) :
  JSON.quoteUnits s +:+ String "034" r = JSON.quoteUnits s' +:+ String "034" r' →
  s = s' ∧ r = r'.
Proof.
  revert s'; induction s as [|c s IH]; intros [|c' s'] H;
    cbn [JSON.quoteUnits] in H; rewrite ?append_nil_l in H.
  - by injection H as ->.
  - rewrite append_assoc in H.
    destruct (quoteUnit_head c' (JSON.quoteUnits s' +:+ String "034" r'))
      as (a & rest & Ha & Hne).
    rewrite Ha in H. by injection H as <-.
  - rewrite append_assoc in H.
    destruct (quoteUnit_head c (JSON.quoteUnits s +:+ String "034" r))
      as (a & rest & Ha & Hne).
    rewrite Ha in H. by injection H as ->.
  - rewrite !append_assoc in H.
    apply quoteUnit_code in H as [-> H].
    by destruct (IH _ H) as [-> ->].
Qed.

Lemma quote_decode (s s' r r' : string) :
  JSON.quote s +:+ r = JSON.quote s' +:+ r' → s = s' ∧ r = r'.
Proof.
  unfold JSON.quote. rewrite !append_cons, !append_assoc, !append_cons.
  rewrite !append_nil_l.
  intros H. injection H as H. by apply quoteUnits_decode.
Qed.

(** Induction on JSON values, with the hypothesis for every item of an array
    and every member of an object. *)
Lemma json_ind_nested (P : json → Prop) :
  (∀ s, P (JString s)) →
  (∀ items, Forall P items → P (JArray items)) →
  (∀ members, Forall (λ kv, P kv.2) members → P (JObject members)) →
  ∀ v, P v.
Proof.
  intros Hs Ha Ho.
  fix IH 1. intros [s|items|members].
  - apply Hs.
  - apply Ha. induction items as [|v items IHitems]; constructor; auto.
  - apply Ho. induction members as [|[k v] members IHm]; constructor; auto.
Qed.

Section join.

Context {A : Type} (pr : A → string) (close : ascii).
Hypothesis close_not_comma : close ≠ ","%char.
Hypothesis pr_head :
  ∀ a r, ∃ c rest, pr a +:+ r = String c rest ∧ c ≠ close.

Lemma join_cons (a : A) (l : list A) :
  JSON.join (map pr (a :: l)) =
  pr a +:+ match l with
           | [] => EmptyString
           | _ :: _ => "," +:+ JSON.join (map pr l)
           end.
Proof. destruct l; simpl; [by rewrite append_nil_r|done]. Qed.

Lemma join_decode (l : list A) :
  Forall (decodable pr) l →
  ∀ l' r r',
    JSON.join (map pr l) +:+ String close r =
    JSON.join (map pr l') +:+ String close r' →
    l = l' ∧ r = r'.
Proof.
  induction 1 as [|a l Ha Hl IH]; intros [|a' l'] r r' H.
  - by injection H as ->.
  - exfalso. rewrite join_cons, append_assoc in H.
    change (map pr [] ) with (@nil string) in H.
    destruct (pr_head a' (match l' with [] => EmptyString
                              | _ :: _ => "," +:+ JSON.join (map pr l') end
                          +:+ String close r')) as (c & rest & Hc & Hne).
    rewrite Hc in H. by injection H as <-.
  - exfalso. rewrite join_cons, append_assoc in H.
    destruct (pr_head a (match l with [] => EmptyString
                             | _ :: _ => "," +:+ JSON.join (map pr l) end
                          +:+ String close r)) as (c & rest & Hc & Hne).
    rewrite Hc in H. by injection H as ->.
  - rewrite !join_cons, !append_assoc in H.
    apply Ha in H as [<- H].
    destruct l as [|b l], l' as [|b' l']; rewrite ?append_nil_l in H.
    + by injection H as ->.
    + exfalso. injection H as H _. done.
    + exfalso. injection H as H _. done.
    + rewrite !append_assoc, !append_cons, !append_nil_l in H.
      injection H as H. by destruct (IH (b' :: l') r r' H) as [-> ->].
Qed.

End join.

Lemma stringify_head (v : json) (r : string) :
  ∃ c rest, JSON.stringify v +:+ r = String c rest ∧
            (c = "034" ∨ c = "[" ∨ c = "{")%char.
Proof. destruct v; eexists _, _; (split; [reflexivity|auto]). Qed.

(** The text of a value can be read back off the front of any text. *)
Lemma stringify_decode (v : json) :
  ∀ v' r r',
    JSON.stringify v +:+ r = JSON.stringify v' +:+ r' → v = v' ∧ r = r'.
Proof.
  induction v as [s|items IH|members IH] using json_ind_nested;
    intros [s'|items'|members'] r r' H; try discriminate H.
  - by apply quote_decode in H as [-> ->].
  - cbn [JSON.stringify] in H.
    append_norm H.
    injection H as H.
    apply (join_decode JSON.stringify "]") in H as [-> ->]; [done| | |done].
    + discriminate.
    + intros a t. destruct (stringify_head a t) as (c & rest & -> & Hc).
      exists c, rest. split; [done|]. by destruct Hc as [-> | [-> | ->]].
  - cbn [JSON.stringify] in H.
    append_norm H.
    injection H as H.
    apply (join_decode _ "}") in H as [-> ->]; [done|discriminate| |].
    + intros [k a] t. eexists _, _. split; [reflexivity|discriminate].
    + eapply Forall_impl; [exact IH|].
      intros [k a] Ha [k' a'] t t' Ht. simpl in *.
      rewrite !append_assoc in Ht.
      apply quote_decode in Ht as [-> Ht].
      rewrite !append_cons, !append_nil_l in Ht. injection Ht as Ht.
      by apply Ha in Ht as [-> ->].
Qed.

Lemma stringify_inj (v v' : json) :
  JSON.stringify v = JSON.stringify v' → v = v'.
Proof.
  intros H.
  destruct (stringify_decode v v' EmptyString EmptyString) as [-> _];
    [by rewrite !append_nil_r|done].
Qed.

(** ** The response body *)

Lemma FlightLocation_ofJSON_toJSON (l : FlightLocation) :
  FlightLocation_ofJSON (FlightLocation_toJSON l) = Some l.
Proof. by destruct l. Qed.

Lemma Flight_ofJSON_toJSON (f : Flight) :
  Flight_ofJSON (Flight_toJSON f) = Some f.
Proof. by destruct f as [? ? [] [] ? ? ? ?]. Qed.

Lemma bodyText_flights_inj (flights flights' : list Flight) :
  bodyText (NextResponse_json (Flights_toJSON flights) None)
  = bodyText (NextResponse_json (Flights_toJSON flights') None) →
  flights = flights'.
Proof.
  unfold bodyText, NextResponse_json, Flights_toJSON, body.
  intros H%stringify_inj. injection H as H.
  apply (f_equal (mapM Flight_ofJSON)) in H.
  rewrite !(mapM_fmap_Some _ _ _ Flight_ofJSON_toJSON) in H.
  by injection H.
Qed.

(** C8. Building the 200 response always succeeds and passes the matched
    sequence through: the body is an array with one object per flight, in the
    same order, each with the fields of the record under their own names and
    with their values (reading an object back gives the record), for the
    empty sequence too; and that is the response of every well-formed
    request. *)
Theorem response_passthrough :
  (∀ flights : list Flight,
      let r := NextResponse_json (Flights_toJSON flights) None in
      statusCode r = 200 ∧
      ∃ items : list json,
        body r = JArray items ∧
        length items = length flights ∧
        (∀ i : nat, items !! i = Flight_toJSON <$> flights !! i) ∧
        (∀ v, v ∈ items → ∃ ms, v = JObject ms ∧ ms.*1 = flightKeys) ∧
        mapM Flight_ofJSON items = Some flights ∧
        bodyText r = "[" +:+ JSON.join (JSON.stringify <$> items) +:+ "]") ∧
  NextResponse_json (Flights_toJSON []) None
  = {| statusCode := 200; body := JArray [] |} ∧
  (∀ (store : list Flight) (request : Request) (q : string),
      URLSearchParams_get (searchParams (url request)) "flightNumber" = Some q →
      q ≠ EmptyString →
      resolved (lookupHandler store request)
      = NextResponse_json (Flights_toJSON (matchFlights q store)) None) ∧
  (∀ flights flights' : list Flight,
      bodyText (NextResponse_json (Flights_toJSON flights) None)
      = bodyText (NextResponse_json (Flights_toJSON flights') None) →
      flights = flights').
Proof.
  split_and!.
  - intros flights r. split; [done|].
    exists (Flight_toJSON <$> flights). split_and!.
    + done.
    + apply length_fmap.
    + intros i. apply list_lookup_fmap.
    + intros v (f & -> & _)%list_elem_of_fmap. by eexists.
    + apply mapM_fmap_Some, Flight_ofJSON_toJSON.
    + done.
  - done.
  - intros store request q Hget Hq.
    by rewrite (lookup_well_formed store request q Hget Hq).
  - apply bodyText_flights_inj.
Qed.

Lemma response_passthrough_witness :
  URLSearchParams_get (searchParams (url (flightsRequest "l7"))) "flightNumber"
  = Some "l7" ∧
  "l7" ≠ EmptyString ∧
  resolved (lookupHandler [flight_twin; flight_DL789] (flightsRequest "l7"))
  = NextResponse_json (Flights_toJSON [flight_DL789]) None.
Proof.
  assert (Hq : "l7" ≠ EmptyString) by discriminate.
  split_and!; [reflexivity|exact Hq|].
  exact (proj1 (proj2 (proj2 response_passthrough))
           [flight_twin; flight_DL789] (flightsRequest "l7") "l7" eq_refl Hq).
Defined.

(** ** The seed store *)

(** C9. Every record of the seed store arrives strictly after it departs, so
    the duration a card computes for it is strictly positive. *)
Theorem seed_arrival_after_departure :
  Forall (λ f, ∃ departure arrival : Z,
              Date.getTime (departureTime f) = Some departure ∧
              Date.getTime (arrivalTime f) = Some arrival ∧
              departure < arrival ∧
              durationMs f = Some (arrival - departure) ∧
              0 < arrival - departure)
         MOCK_FLIGHTS ∧
  (hours <$> MOCK_FLIGHTS) = [Some 12; Some 28; Some 14] ∧
  (minutes <$> MOCK_FLIGHTS) = [Some 0; Some 0; Some 15].
Proof.
  split; [|by vm_compute].
  repeat apply Forall_cons_2; [..|apply Forall_nil_2];
    (eexists _, _; split_and!; [by vm_compute|by vm_compute|done..]).
Qed.

Lemma NoDup_numbers_sublist (l1 l2 : list Flight) :
  l1 `sublist_of` l2 → NoDup (cardKeys l2) → NoDup (cardKeys l1).
Proof.
  intros Hsub Hnd. eapply sublist_NoDup; [done|].
  unfold cardKeys. by apply fmap_sublist.
Qed.

Lemma withNumber_length (n : string) (flights : list Flight) :
  NoDup (cardKeys flights) → (length (withNumber n flights) ≤ 1)%nat.
Proof.
  unfold withNumber, cardKeys.
  induction flights as [|f flights IH]; [simpl; lia|].
  rewrite fmap_cons, NoDup_cons. intros [Hf Hnd].
  rewrite filter_cons. case_decide as Hn; [|by apply IH].
  destruct (filter (λ f, flightNumber f = n) flights) as [|g rest] eqn:Hfil;
    [done|].
  exfalso. apply Hf.
  assert (Hg : g ∈ filter (λ f, flightNumber f = n) flights)
    by (rewrite Hfil; apply list_elem_of_here).
  apply list_elem_of_filter in Hg as [Heq Hg].
  rewrite Hn, <- Heq. by apply list_elem_of_fmap_2.
Qed.

(** C10. The flight numbers of the seed store are [AA123], [UA456] and
    [DL789], pairwise distinct; so for every query the result over the seed
    store holds at most one record of any given number, and the cards
    rendered for it have distinct keys. *)
Theorem seed_numbers_distinct :
  (flightNumber <$> MOCK_FLIGHTS) = ["AA123"; "UA456"; "DL789"] ∧
  NoDup (flightNumber <$> MOCK_FLIGHTS) ∧
  (∀ q n : string,
      (length (withNumber n (matchFlights q MOCK_FLIGHTS)) ≤ 1)%nat) ∧
  (∀ q : string, NoDup (cardKeys (matchFlights q MOCK_FLIGHTS))).
Proof.
  assert (Hnd : NoDup (cardKeys MOCK_FLIGHTS)).
  { apply (bool_decide_unpack _). by vm_compute. }
  assert (Hq : ∀ q, NoDup (cardKeys (matchFlights q MOCK_FLIGHTS))).
  { intros q. eapply NoDup_numbers_sublist; [|done]. apply sublist_filter. }
  split_and!; [done|done| |done].
  intros q n. apply withNumber_length, Hq.
Qed.

(** * Further properties of the code *)

(** ** Case folding and containment *)

Lemma lowerUnit_idem (c : ascii) : JS.lowerUnit (JS.lowerUnit c) = JS.lowerUnit c.
Proof.
  assert (Hall : forallb (λ c, Ascii.eqb (JS.lowerUnit (JS.lowerUnit c))
                                 (JS.lowerUnit c)) allUnits = true)
    by (vm_compute; reflexivity).
  rewrite forallb_forall in Hall.
  by apply Ascii.eqb_eq, Hall, elem_of_allUnits.
Qed.

Lemma toLowerCase_idem (s : string) :
  JS.toLowerCase (JS.toLowerCase s) = JS.toLowerCase s.
Proof.
  induction s as [|c s IH]; [done|]. simpl. by rewrite lowerUnit_idem, IH.
Qed.



Lemma toLowerCase_units (s : string) :
  Text.units (JS.toLowerCase s) = JS.lowerUnit <$> Text.units s.
Proof.
  induction s as [|c s IH]; [done|].
  change (JS.lowerUnit c :: Text.units (JS.toLowerCase s)
          = JS.lowerUnit c :: (JS.lowerUnit <$> Text.units s)).
  by rewrite IH.
Qed.


Lemma units_append (a b : string) :
  Text.units (a +:+ b) = Text.units a ++ Text.units b.
Proof.
  induction a as [|c a IH]; [done|]. rewrite append_cons.
  change (c :: Text.units (a +:+ b) = c :: (Text.units a ++ Text.units b)).
  by rewrite IH.
Qed.

Lemma occursIn_refl (s : string) : occursIn s s.
Proof. exists EmptyString, EmptyString. by rewrite append_nil_l, append_nil_r. Qed.




Lemma occursIn_units (a b : string) :
  occursIn a b → Text.units a ⊆ Text.units b.
Proof.
  intros (p & s & ->) c Hc. rewrite !units_append, !elem_of_app. auto.
Qed.

Lemma matchesQuery_occursIn (q : string) (f : Flight) :
  matchesQuery q f = true ↔
  occursIn (JS.toLowerCase q) (JS.toLowerCase (flightNumber f)).
Proof. unfold matchesQuery. apply includes_spec. Qed.

(** ** More on the matcher *)

(** X1. Matching does not see the case of the query: two queries that are
    equal once lower-cased select the same flights, and a query selects what
    its lower-cased form selects. *)
Theorem matchFlights_case_blind (q q' : string) (store : list Flight) :
  JS.toLowerCase q = JS.toLowerCase q' →
  matchFlights q store = matchFlights q' store ∧
  matchFlights (JS.toLowerCase q) store = matchFlights q' store.
Proof.
  intros Hqq'. unfold matchFlights, matchesQuery.
  by rewrite toLowerCase_idem, Hqq'.
Qed.

Lemma matchFlights_case_blind_witness :
  JS.toLowerCase "dL7" = JS.toLowerCase "Dl7" ∧
  matchFlights "dL7" MOCK_FLIGHTS = matchFlights "Dl7" MOCK_FLIGHTS ∧
  matchFlights (JS.toLowerCase "dL7") MOCK_FLIGHTS = matchFlights "Dl7" MOCK_FLIGHTS.
Proof.
  split; [reflexivity|].
  exact (matchFlights_case_blind "dL7" "Dl7" MOCK_FLIGHTS eq_refl).
Defined.





(** X4. A flight of the store is found under its own number, in any case:
    every query that equals the number once both are lower-cased selects
    it. *)
Theorem matchFlights_own_number (q : string) (store : list Flight) (f : Flight) :
  f ∈ store →
  JS.toLowerCase q = JS.toLowerCase (flightNumber f) →
  f ∈ matchFlights q store.
Proof.
  intros Hf Hq. apply elem_of_matchFlights. split; [|done].
  apply matchesQuery_occursIn. rewrite Hq. apply occursIn_refl.
Qed.

Lemma matchFlights_own_number_witness :
  flight_twin ∈ [flight_DL789; flight_twin] ∧
  JS.toLowerCase "aA123" = JS.toLowerCase (flightNumber flight_twin) ∧
  flight_twin ∈ matchFlights "aA123" [flight_DL789; flight_twin].
Proof.
  assert (H : flight_twin ∈ [flight_DL789; flight_twin])
    by (apply list_elem_of_further, list_elem_of_here).
  exact (conj H (conj eq_refl
    (matchFlights_own_number "aA123" [flight_DL789; flight_twin] flight_twin
       H eq_refl))).
Defined.

(** ** More on the handler *)

Lemma get_first (before rest : URLSearchParams) (name value : string) :
  name ∉ before.*1 →
  URLSearchParams_get (before ++ (name, value) :: rest) name = Some value.
Proof.
  induction before as [|[k v] before IH]; intros Hnot; simpl.
  - by rewrite decide_True.
  - rewrite fmap_cons, not_elem_of_cons in Hnot. destruct Hnot as [Hk Hnot].
    rewrite decide_False; [by apply IH|]. simpl in Hk. congruence.
Qed.

(** X5. The handler answers in one of two ways and no other: at once with
    status 400 and the error object, exactly when the parameter is absent or
    empty; or after the delay with status 200 and an array that has no more
    items than the store has records. *)
Theorem lookupHandler_answers (store : list Flight) (request : Request) :
  let param := URLSearchParams_get (searchParams (url request)) "flightNumber" in
  let answer := lookupHandler store request in
  (param = None ∨ param = Some EmptyString) ∧
  answer = Resolve missingParameter
  ∨
  (∃ q, param = Some q ∧ q ≠ EmptyString) ∧
  waited answer = 800 ∧
  statusCode (resolved answer) = 200 ∧
  ∃ items, body (resolved answer) = JArray items ∧
           (length items ≤ length store)%nat.
Proof.
  intros param answer. subst answer.
  destruct param as [[|c q]|] eqn:Hparam; subst param.
  - left. split; [by right|]. unfold lookupHandler. by rewrite Hparam.
  - right. split; [by eexists|].
    rewrite (lookup_well_formed store request (String c q)); [|done..].
    split_and!; [done..|]. eexists. split; [done|].
    rewrite length_fmap. apply length_filter.
  - left. split; [by left|]. unfold lookupHandler. by rewrite Hparam.
Qed.

(** X6. Of several [flightNumber] parameters the first one counts: the
    answer is that to the plain request for its value, whatever comes after
    it and whatever other parameters, path, method or headers the request
    has. *)
Theorem lookupHandler_first_parameter (store : list Flight) (request : Request)
    (before rest : URLSearchParams) (q : string) :
  searchParams (url request) = before ++ ("flightNumber", q) :: rest →
  "flightNumber" ∉ before.*1 →
  lookupHandler store request = lookupHandler store (flightsRequest q).
Proof.
  intros Hparams Hbefore. unfold lookupHandler.
  by rewrite Hparams, get_first.
Qed.

Lemma lookupHandler_first_parameter_witness :
  searchParams (url strayRequest)
  = [("flight", "AA123")] ++ (("flightNumber", "") :: [("flightNumber", "AA123")]) ∧
  ("flightNumber" ∉ ([("flight", "AA123")] : URLSearchParams).*1) ∧
  lookupHandler MOCK_FLIGHTS strayRequest
  = lookupHandler MOCK_FLIGHTS (flightsRequest "").
Proof.
  assert (H : "flightNumber" ∉ ([("flight", "AA123")] : URLSearchParams).*1).
  { apply not_elem_of_cons. split; [discriminate|apply not_elem_of_nil]. }
  exact (conj eq_refl (conj H
    (lookupHandler_first_parameter MOCK_FLIGHTS strayRequest
       [("flight", "AA123")] [("flightNumber", "AA123")] "" eq_refl H))).
Defined.

(** ** The card *)

Lemma hours_minutes (f : Flight) (ms : Z) :
  durationMs f = Some ms →
  hours f = Some (ms / 3600000) ∧
  minutes f = Some (Z.rem ms 3600000 / 60000).
Proof. unfold hours, minutes. by intros ->. Qed.

(** X7. When a record does not arrive before it departs, the card splits the
    duration into whole hours and the whole minutes left: the hours are not
    negative, the minutes lie between 0 and 59, together they are the
    duration in whole minutes, and less than a minute of it is dropped. *)
Theorem duration_split (f : Flight) (ms : Z) :
  durationMs f = Some ms →
  0 ≤ ms →
  ∃ h m, hours f = Some h ∧ minutes f = Some m ∧
         0 ≤ h ∧ 0 ≤ m ≤ 59 ∧
         h * 60 + m = ms / 60000 ∧
         h * 3600000 + m * 60000 ≤ ms < h * 3600000 + m * 60000 + 60000.
Proof.
  intros [Hh Hm]%hours_minutes Hms.
  exists (ms / 3600000), (Z.rem ms 3600000 / 60000).
  split; [done|]. split; [done|].
  rewrite Z.rem_mod_nonneg by lia.
  Z.div_mod_to_equations. lia.
Qed.

Lemma duration_split_witness :
  durationMs flight_DL789 = Some 51300000 ∧ 0 ≤ 51300000 ∧
  ∃ h m, hours flight_DL789 = Some h ∧ minutes flight_DL789 = Some m ∧
         0 ≤ h ∧ 0 ≤ m ≤ 59 ∧
         h * 60 + m = 51300000 / 60000 ∧
         h * 3600000 + m * 60000 ≤ 51300000 < h * 3600000 + m * 60000 + 60000.
Proof.
  assert (H : durationMs flight_DL789 = Some 51300000) by (by vm_compute).
  assert (H0 : 0 ≤ 51300000) by lia.
  exact (conj H (conj H0 (duration_split flight_DL789 51300000 H H0))).
Defined.

(** X8. When a record arrives before it departs, by other than a whole
    number of hours, the card shows negative hours and negative minutes, and
    together they are an hour further from zero than the duration in whole
    minutes. *)
Theorem duration_split_negative (f : Flight) (ms : Z) :
  durationMs f = Some ms →
  ms < 0 →
  ms mod 3600000 ≠ 0 →
  ∃ h m, hours f = Some h ∧ minutes f = Some m ∧
         h < 0 ∧ -60 ≤ m ≤ -1 ∧
         h * 60 + m = ms / 60000 - 60.
Proof.
  intros [Hh Hm]%hours_minutes Hms Hrem.
  exists (ms / 3600000), (Z.rem ms 3600000 / 60000).
  split; [done|]. split; [done|].
  Z.to_euclidean_division_equations. lia.
Qed.

Lemma duration_split_negative_witness :
  durationMs flight_backwards = Some (-5430000) ∧ -5430000 < 0 ∧
  (-5430000) mod 3600000 ≠ 0 ∧
  ∃ h m, hours flight_backwards = Some h ∧ minutes flight_backwards = Some m ∧
         h < 0 ∧ -60 ≤ m ≤ -1 ∧
         h * 60 + m = -5430000 / 60000 - 60.
Proof.
  assert (H : durationMs flight_backwards = Some (-5430000)) by (by vm_compute).
  assert (H0 : -5430000 < 0) by lia.
  assert (H1 : (-5430000) mod 3600000 ≠ 0) by (by vm_compute).
  exact (conj H (conj H0 (conj H1
    (duration_split_negative flight_backwards (-5430000) H H0 H1)))).
Defined.

(** X9. The colour of a status: the destructive colour for [Delayed] and for
    nothing else, the warning colour for [Boarding] and for nothing else, the
    success colour for every other string, a status that differs from these
    two by case only included. *)
Theorem getStatusColor_cases (status : string) :
  (getStatusColor status = "var(--destructive, #ff4444)" ↔ status = "Delayed") ∧
  (getStatusColor status = "var(--warning, #ffbb33)" ↔ status = "Boarding") ∧
  (getStatusColor status = "var(--success, #00C851)" ↔
   status ≠ "Delayed" ∧ status ≠ "Boarding") ∧
  (JS.toLowerCase status = "delayed" → status ≠ "Delayed" →
   getStatusColor status = "var(--success, #00C851)").
Proof.
  unfold getStatusColor.
  repeat case_decide; subst; split_and!; try split; try done;
    try (intros [? ?]; done); try discriminate.
Qed.

(** ** The wire text *)

(** X10. [JSON.stringify] is one-to-one on these values: two values with the
    same text are the same value (member order and all), and the text of a
    value is never the start of the text of another. *)
Theorem stringify_injective (v v' : json) :
  (JSON.stringify v = JSON.stringify v' ↔ v = v') ∧
  (JS.startsWith (JSON.stringify v') (JSON.stringify v) = true → v = v').
Proof.
  split; [split; [apply stringify_inj|by intros ->]|].
  intros [post Hpost]%startsWith_spec.
  destruct (stringify_decode v' v EmptyString post) as [-> _]; [|done].
  by rewrite append_nil_r.
Qed.

(** ** From the page to the handler *)

Lemma forall_units (b : ascii → bool) :
  forallb b allUnits = true → ∀ c, b c = true.
Proof. intros H c. rewrite forallb_forall in H. apply H, elem_of_allUnits. Qed.

Section units.

Context (p : ascii → bool).

Lemma dropEnd_id (s : string) :
  Forall (λ c, p c = false) (Text.units s) → Text.dropEnd p s = s.
Proof.
  induction s as [|c s IH]; [done|].
  intros [Hc Hs]%Forall_cons. simpl. rewrite (IH Hs), Hc. by destruct s.
Qed.

Lemma remove_id (s : string) :
  Forall (λ c, p c = false) (Text.units s) → Text.remove p s = s.
Proof.
  induction s as [|c s IH]; [done|].
  intros [Hc Hs]%Forall_cons. simpl. by rewrite (IH Hs), Hc.
Qed.

End units.

Lemma untilHash_id (s : string) :
  Forall (λ c, Ascii.eqb c "#" = false) (Text.units s) → URI.untilHash s = s.
Proof.
  induction s as [|c s IH]; [done|].
  intros [Hc Hs]%Forall_cons. simpl. by rewrite (IH Hs), Hc.
Qed.

Lemma splitOn_id (sep : ascii) (s : string) :
  Forall (λ c, Ascii.eqb c sep = false) (Text.units s) →
  URI.splitOn sep s = [s].
Proof.
  induction s as [|c s IH]; [done|].
  intros [Hc Hs]%Forall_cons. simpl. by rewrite (IH Hs), Hc.
Qed.

Lemma queryState_app (a b : string) :
  URI.queryState (a +:+ b) = URI.queryState a +:+ URI.queryState b.
Proof.
  induction a as [|c a IH]; [done|].
  rewrite append_cons. simpl. by rewrite IH, append_assoc.
Qed.

Lemma queryState_id (s : string) :
  Forall (λ c, URI.inQuerySet c = false) (Text.units s) →
  URI.queryState s = s.
Proof.
  induction s as [|c s IH]; [done|].
  intros [Hc Hs]%Forall_cons. simpl. unfold URI.queryUnit.
  by rewrite (IH Hs), Hc.
Qed.

Lemma untouched_spec (c : ascii) :
  URI.untouched c = true →
  URI.inQuerySet c = false ∧ Ascii.eqb c "&" = false ∧
  Ascii.eqb c "+" = false ∧ Ascii.eqb c "#" = false ∧
  URI.isC0OrSpace c = false ∧ URI.isTabOrNewline c = false.
Proof.
  intros H.
  assert (Hall := forall_units
    (λ c, implb (URI.untouched c)
            (negb (URI.inQuerySet c) && negb (Ascii.eqb c "&")
             && negb (Ascii.eqb c "+") && negb (Ascii.eqb c "#")
             && negb (URI.isC0OrSpace c) && negb (URI.isTabOrNewline c)))
    ltac:(vm_compute; reflexivity) c).
  simpl in Hall. rewrite H in Hall. simpl in Hall.
  repeat (apply andb_true_iff in Hall as [Hall ?]).
  repeat match goal with H : negb _ = true |- _ => apply negb_true_iff in H end.
  done.
Qed.

(** What one unit of the query has become when the URL reaches the form
    parser. *)
Lemma encodeUnit_untouched (c : ascii) :
  Forall (λ u, URI.untouched u = true)
         (Text.units (URI.queryState (URI.encodeUnit c))).
Proof.
  apply Forall_forall. intros u Hu.
  assert (Hall := forall_units
    (λ c, forallb URI.untouched
            (Text.units (URI.queryState (URI.encodeUnit c))))
    ltac:(vm_compute; reflexivity) c).
  simpl in Hall. rewrite forallb_forall in Hall.
  by apply Hall, list_elem_of_In.
Qed.

Lemma encodeUnit_plain (c : ascii) :
  Forall (λ u, URI.isC0OrSpace u = false ∧ URI.isTabOrNewline u = false ∧
               Ascii.eqb u "#" = false)
         (Text.units (URI.encodeUnit c)).
Proof.
  apply Forall_forall. intros u Hu.
  assert (Hall := forall_units
    (λ c, forallb (λ u, negb (URI.isC0OrSpace u) && negb (URI.isTabOrNewline u)
                        && negb (Ascii.eqb u "#"))
            (Text.units (URI.encodeUnit c)))
    ltac:(vm_compute; reflexivity) c).
  simpl in Hall. rewrite forallb_forall in Hall.
  specialize (Hall u (proj1 (list_elem_of_In _ _) Hu)).
  repeat (apply andb_true_iff in Hall as [Hall ?]).
  repeat match goal with H : negb _ = true |- _ => apply negb_true_iff in H end.
  done.
Qed.

Lemma encodeURIComponent_plain (q : string) :
  Forall (λ u, URI.isC0OrSpace u = false ∧ URI.isTabOrNewline u = false ∧
               Ascii.eqb u "#" = false)
         (Text.units (URI.encodeURIComponent q)).
Proof.
  induction q as [|c q IH]; [constructor|].
  simpl. rewrite units_append. apply Forall_app. split; [|done].
  apply encodeUnit_plain.
Qed.

Lemma sent_untouched (q : string) :
  Forall (λ u, URI.untouched u = true)
         (Text.units (URI.queryState (URI.encodeURIComponent q))).
Proof.
  induction q as [|c q IH]; [constructor|].
  simpl. rewrite queryState_app, units_append. apply Forall_app.
  split; [|done]. apply encodeUnit_untouched.
Qed.

(** One unit through the whole chain: escaped by the page, read by the
    query state, then decoded by the form parser. *)
Lemma decode_unit (c : ascii) (rest : string) :
  URI.decode (URI.queryState (URI.encodeUnit c) +:+ rest)
  = String c <$> URI.decode rest.
Proof.
  unfold URI.decode.
  destruct c as [[] [] [] [] [] [] [] []]; reflexivity.
Qed.

Lemma decode_sent (q : string) :
  URI.decode (URI.queryState (URI.encodeURIComponent q)) = Some q.
Proof.
  induction q as [|c q IH]; [done|].
  simpl. by rewrite queryState_app, decode_unit, IH.
Qed.

Lemma query_flights (s : string) :
  Forall (λ u, URI.isC0OrSpace u = false ∧ URI.isTabOrNewline u = false ∧
               Ascii.eqb u "#" = false) (Text.units s) →
  URI.query ("/api/flights?" +:+ s) = URI.queryState s.
Proof.
  intros Hs. unfold URI.query, URI.preprocess.
  assert (Hall : Forall (λ u, URI.isC0OrSpace u = false ∧
                              URI.isTabOrNewline u = false ∧
                              Ascii.eqb u "#" = false)
                   (Text.units ("/api/flights?" +:+ s))).
  { rewrite units_append. apply Forall_app. split; [|done].
    repeat constructor. }
  change (Text.dropStart URI.isC0OrSpace ("/api/flights?" +:+ s))
    with ("/api/flights?" +:+ s).
  rewrite dropEnd_id, remove_id.
  - change (URI.rawQuery ("/api/flights?" +:+ s)) with (URI.untilHash s).
    rewrite untilHash_id; [done|].
    eapply Forall_impl; [exact Hs|]. by intros u (_ & _ & ?).
  - eapply Forall_impl; [exact Hall|]. by intros u (_ & ? & _).
  - eapply Forall_impl; [exact Hall|]. by intros u (? & _ & _).
Qed.

Lemma untouched_plain (s : string) :
  Forall (λ u, URI.untouched u = true) (Text.units s) →
  Forall (λ u, URI.isC0OrSpace u = false ∧ URI.isTabOrNewline u = false ∧
               Ascii.eqb u "#" = false) (Text.units s).
Proof.
  intros H. eapply Forall_impl; [exact H|].
  intros u Hu. by apply untouched_spec in Hu as (_ & _ & _ & ? & ? & ?).
Qed.

Lemma received_searchURL (q : string) :
  receivedParams (searchURL q) = Some [("flightNumber", q)].
Proof.
  unfold receivedParams, searchURL.
  change ("/api/flights?flightNumber=" +:+ URI.encodeURIComponent q)
    with ("/api/flights?" +:+ "flightNumber=" +:+ URI.encodeURIComponent q).
  rewrite (query_flights ("flightNumber=" +:+ URI.encodeURIComponent q)).
  2:{ rewrite units_append. apply Forall_app. split; [repeat constructor|].
      apply encodeURIComponent_plain. }
  rewrite queryState_app.
  change (URI.queryState "flightNumber=") with "flightNumber=".
  pose proof (sent_untouched q) as Hq.
  set (sent := URI.queryState (URI.encodeURIComponent q)) in *.
  assert (Hall : Forall (λ u, URI.untouched u = true)
                   (Text.units ("flightNumber=" +:+ sent))).
  { rewrite units_append. apply Forall_app. split; [repeat constructor|done]. }
  rewrite (query_flights ("flightNumber=" +:+ sent))
    by by apply untouched_plain.
  rewrite queryState_id.
  2:{ eapply Forall_impl; [exact Hall|].
      intros u Hu. by apply untouched_spec in Hu as [? _]. }
  unfold URI.parse. rewrite splitOn_id.
  2:{ eapply Forall_impl; [exact Hall|].
      intros u Hu. by apply untouched_spec in Hu as (_ & ? & _). }
  rewrite filter_cons_True, filter_nil by done.
  change (mapM URI.parsePair ["flightNumber=" +:+ sent])
    with (p ← (v ← URI.decode sent; Some ("flightNumber", v)); Some [p]).
  subst sent. by rewrite decode_sent.
Qed.


(** X12. [encodeURIComponent] writes nothing but letters, digits, the marks
    it leaves alone and [%]: no [&], [=], [+], [#], [?], [/], no space, no
    control unit and no unit above [~]. *)
Theorem encodeURIComponent_alphabet (q : string) :
  Forall (λ u, URI.isUnescaped u = true ∨ u = "%"%char)
         (Text.units (URI.encodeURIComponent q)) ∧
  Forall (λ u, (u ∉ Text.units "&=+#?/ ") ∧ (32 < N_of_ascii u < 127)%N)
         (Text.units (URI.encodeURIComponent q)).
Proof.
  assert (Hunit : ∀ c u, u ∈ Text.units (URI.encodeUnit c) →
            (URI.isUnescaped u = true ∨ u = "%"%char) ∧
            (u ∉ Text.units "&=+#?/ ") ∧ (32 < N_of_ascii u < 127)%N).
  { intros c u Hu.
    assert (Hall := forall_units
      (λ c, forallb (λ u, (URI.isUnescaped u || Ascii.eqb u "%")
                          && negb (existsb (Ascii.eqb u) (Text.units "&=+#?/ "))
                          && (32 <? N_of_ascii u)%N && (N_of_ascii u <? 127)%N)
              (Text.units (URI.encodeUnit c)))
      ltac:(vm_compute; reflexivity) c).
    cbv beta in Hall. rewrite forallb_forall in Hall.
    specialize (Hall u (proj1 (list_elem_of_In _ _) Hu)).
    apply andb_true_iff in Hall as [Hall Hlt].
    apply andb_true_iff in Hall as [Hall Hgt].
    apply andb_true_iff in Hall as [Hall Hex].
    apply orb_true_iff in Hall.
    split_and!.
    - destruct Hall as [?|?%Ascii.eqb_eq]; auto.
    - intros Hin. apply negb_true_iff in Hex.
      assert (existsb (Ascii.eqb u) (Text.units "&=+#?/ ") = true) as Hyes;
        [|by rewrite Hyes in Hex].
      apply existsb_exists. exists u. split; [by apply list_elem_of_In|].
      apply Ascii.eqb_refl.
    - by apply N.ltb_lt.
    - by apply N.ltb_lt. }
  induction q as [|c q [IH1 IH2]]; [split; constructor|].
  simpl. rewrite units_append. split; apply Forall_app; (split; [|done]);
    apply Forall_forall; intros u Hu; by apply Hunit in Hu as (? & ? & ?).
Qed.

(** ** The page *)

Section drop.

Context (p : ascii → bool).

Lemma dropEnd_empty (s : string) :
  Text.dropEnd p s = EmptyString ↔ Forall (λ c, p c = true) (Text.units s).
Proof.
  induction s as [|c s IH]; [by split; [constructor|]|].
  change (Text.units (String c s)) with (c :: Text.units s).
  rewrite Forall_cons, <- IH. simpl.
  destruct (Text.dropEnd p s), (p c); split; try done; by intros [? ?].
Qed.

Lemma dropStart_Forall (s : string) :
  Forall (λ c, p c = true) (Text.units (Text.dropStart p s)) ↔
  Forall (λ c, p c = true) (Text.units s).
Proof.
  induction s as [|c s IH]; [done|]. simpl.
  destruct (p c) eqn:Hc; [|done].
  change (Text.units (String c s)) with (c :: Text.units s).
  rewrite Forall_cons, IH. tauto.
Qed.

End drop.

Lemma trim_empty (s : string) :
  Text.trim s = EmptyString ↔
  Forall (λ c, Text.isWhiteSpace c = true) (Text.units s).
Proof. unfold Text.trim. by rewrite dropEnd_empty, dropStart_Forall. Qed.

Lemma trim_nonempty (s : string) :
  Text.trim s ≠ EmptyString → s ≠ EmptyString.
Proof. by intros H ->. Qed.

Lemma handleSearch_searches (fetch : string → Home.FetchResult) (st : Home.State) :
  Text.trim (Home.query st) ≠ EmptyString →
  Home.handleSearch fetch st =
  [Home.pending st;
   Home.settled (Home.pending st) (fetch (searchURL (Home.query st)))] ∧
  Home.after fetch st =
  Home.settled (Home.pending st) (fetch (searchURL (Home.query st))).
Proof.
  intros Hq. unfold Home.after, Home.handleSearch. by rewrite decide_False.
Qed.

(** X13. A query of nothing but white space (spaces, tabs, line breaks,
    no-break spaces), the empty query included, is not searched: nothing is
    fetched and the state stays as it is.  Every other query is. *)
Theorem handleSearch_blank (fetch : string → Home.FetchResult) (st : Home.State) :
  (Home.handleSearch fetch st = [] ↔
   Forall (λ c, Text.isWhiteSpace c = true) (Text.units (Home.query st))) ∧
  (Home.handleSearch fetch st = [] → Home.after fetch st = st) ∧
  (Home.handleSearch fetch st ≠ [] →
   Home.handleSearch fetch st =
   [Home.pending st;
    Home.settled (Home.pending st) (fetch (searchURL (Home.query st)))]).
Proof.
  rewrite <- trim_empty. unfold Home.after, Home.handleSearch.
  case_decide as Hq; split_and!; done.
Qed.

Lemma settled_throws (st : Home.State) (result : Home.FetchResult) :
  Home.throws result = true → Home.settled st result = Home.failed st.
Proof.
  destruct result as [|status [data|]]; simpl; try done; by destruct (Home.ok status).
Qed.

Lemma settled_data (st : Home.State) (result : Home.FetchResult) :
  Home.throws result = false →
  ∃ status data, result = Home.Fulfilled status (Some data) ∧
                 Home.ok status = true ∧
                 Home.settled st result =
                 {| Home.query := Home.query st; Home.flights := data;
                    Home.loading := false; Home.error := Home.error st;
                    Home.hasSearched := Home.hasSearched st |}.
Proof.
  destruct result as [|status [data|]]; simpl; try done;
    destruct (Home.ok status) eqn:Hok; try done.
  intros _. exists status, data. by rewrite Hok.
Qed.

Lemma render_found (q : string) (found : list Flight) :
  Home.render {| Home.query := q; Home.flights := Flights_toJSON found;
                 Home.loading := false; Home.error := EmptyString;
                 Home.hasSearched := true |}
  = Some (Home.resultView q found).
Proof.
  unfold Home.render, Home.resultView, Flights_toJSON. simpl.
  rewrite length_fmap, <- list_fmap_compose. by destruct found.
Qed.

Lemma answeredBy_searchURL (store : list Flight) (q : string) :
  q ≠ EmptyString →
  answeredBy store (searchURL q)
  = Some (Home.Fulfilled 200 (Some (Flights_toJSON (matchFlights q store)))).
Proof.
  intros Hq. unfold answeredBy. rewrite received_searchURL. simpl.
  by rewrite (lookup_well_formed store _ q).
Qed.

Lemma after_answered (store : list Flight) (fetch : string → Home.FetchResult)
    (st : Home.State) :
  Text.trim (Home.query st) ≠ EmptyString →
  answeredBy store (searchURL (Home.query st))
  = Some (fetch (searchURL (Home.query st))) →
  Home.after fetch st =
  {| Home.query := Home.query st;
     Home.flights := Flights_toJSON (matchFlights (Home.query st) store);
     Home.loading := false; Home.error := EmptyString;
     Home.hasSearched := true |}.
Proof.
  intros Hq Hfetch.
  rewrite answeredBy_searchURL in Hfetch by by apply trim_nonempty.
  injection Hfetch as Hfetch.
  destruct (handleSearch_searches fetch st Hq) as [_ ->].
  by rewrite <- Hfetch.
Qed.

(** X14. A search the handler answers ends with the handler's matches on the
    page: for every query that is not blank, the page is left holding the
    flights the matcher selects for the query as typed, not loading and
    without an error; it shows one card per match, keyed by the flight
    number, and the notice that nothing was found exactly when there is no
    match.  The handler never refuses such a search. *)
Theorem search_shows_matches (store : list Flight)
    (fetch : string → Home.FetchResult) (st : Home.State) :
  Text.trim (Home.query st) ≠ EmptyString →
  answeredBy store (searchURL (Home.query st))
  = Some (fetch (searchURL (Home.query st))) →
  fetch (searchURL (Home.query st))
  = Home.Fulfilled 200
      (Some (Flights_toJSON (matchFlights (Home.query st) store))) ∧
  Home.after fetch st =
  {| Home.query := Home.query st;
     Home.flights := Flights_toJSON (matchFlights (Home.query st) store);
     Home.loading := false; Home.error := EmptyString;
     Home.hasSearched := true |} ∧
  Home.render (Home.after fetch st)
  = Some (Home.resultView (Home.query st) (matchFlights (Home.query st) store)).
Proof.
  intros Hq Hfetch. rewrite (after_answered store fetch st Hq Hfetch).
  rewrite answeredBy_searchURL in Hfetch by by apply trim_nonempty.
  injection Hfetch as <-. split_and!; [done..|]. apply render_found.
Qed.

Lemma search_shows_matches_witness :
  Text.trim (Home.query (Home.setQuery "ua" Home.initial)) ≠ EmptyString ∧
  answeredBy MOCK_FLIGHTS (searchURL (Home.query (Home.setQuery "ua" Home.initial)))
  = Some (fetchFromSeed (searchURL (Home.query (Home.setQuery "ua" Home.initial)))) ∧
  Home.render (Home.after fetchFromSeed (Home.setQuery "ua" Home.initial))
  = Some (Home.resultView "ua" [flight_UA456]).
Proof.
  assert (Hq : Text.trim (Home.query (Home.setQuery "ua" Home.initial))
               ≠ EmptyString) by discriminate.
  assert (Ha : answeredBy MOCK_FLIGHTS
                 (searchURL (Home.query (Home.setQuery "ua" Home.initial)))
               = Some (fetchFromSeed
                   (searchURL (Home.query (Home.setQuery "ua" Home.initial)))))
    by (by vm_compute).
  split_and!; [done..|].
  exact (proj2 (proj2 (search_shows_matches MOCK_FLIGHTS fetchFromSeed
                         (Home.setQuery "ua" Home.initial) Hq Ha))).
Defined.

(** X15. A search that fails (the request is rejected, the status is not in
    200-299, or the body is not JSON) ends with the error message and no
    flights: the page shows the banner, no card, and not the notice that
    nothing was found. *)
Theorem search_failure (fetch : string → Home.FetchResult) (st : Home.State) :
  Text.trim (Home.query st) ≠ EmptyString →
  Home.throws (fetch (searchURL (Home.query st))) = true →
  Home.after fetch st =
  {| Home.query := Home.query st; Home.flights := JArray [];
     Home.loading := false; Home.error := Home.failureMessage;
     Home.hasSearched := true |} ∧
  Home.render (Home.after fetch st) = Some Home.failureView.
Proof.
  intros Hq Hthrows.
  destruct (handleSearch_searches fetch st Hq) as [_ ->].
  by rewrite settled_throws.
Qed.

Lemma search_failure_witness :
  Text.trim (Home.query (Home.setQuery "AA123" Home.initial)) ≠ EmptyString ∧
  Home.throws (fetchRefused (searchURL (Home.query (Home.setQuery "AA123" Home.initial))))
  = true ∧
  Home.render (Home.after fetchRefused (Home.setQuery "AA123" Home.initial))
  = Some Home.failureView.
Proof.
  assert (Hq : Text.trim (Home.query (Home.setQuery "AA123" Home.initial))
               ≠ EmptyString) by discriminate.
  split_and!; [done|reflexivity|].
  exact (proj2 (search_failure fetchRefused (Home.setQuery "AA123" Home.initial)
                  Hq eq_refl)).
Defined.

(** X16. After a search the page shows exactly one thing: when it renders,
    the button is enabled again and either the error banner, or the notice
    that nothing was found, or at least one card is shown, never two of
    them. *)
Theorem search_shows_one (fetch : string → Home.FetchResult) (st : Home.State)
    (view : Home.View) :
  Text.trim (Home.query st) ≠ EmptyString →
  Home.render (Home.after fetch st) = Some view →
  Home.buttonDisabled view = false ∧
  (is_Some (Home.banner view) ∧ Home.notice view = None ∧ Home.cards view = []
   ∨ Home.banner view = None ∧ is_Some (Home.notice view) ∧ Home.cards view = []
   ∨ Home.banner view = None ∧ Home.notice view = None ∧ Home.cards view ≠ []).
Proof.
  intros Hq. destruct (handleSearch_searches fetch st Hq) as [_ ->].
  destruct (Home.throws (fetch (searchURL (Home.query st)))) eqn:Hthrows.
  - rewrite settled_throws by done. intros [= <-].
    split; [done|]. left. by split_and!.
  - destruct (settled_data (Home.pending st) _ Hthrows)
      as (status & data & _ & _ & ->).
    unfold Home.render. simpl. destruct data as [| items |]; try done.
    intros [= <-]. simpl. split; [done|]. right.
    destruct items; [left|right]; by split_and!.
Qed.

Lemma search_shows_one_witness :
  Text.trim (Home.query (Home.setQuery "a" Home.initial)) ≠ EmptyString ∧
  Home.render (Home.after fetchFromSeed (Home.setQuery "a" Home.initial))
  = Some (Home.resultView "a" [flight_AA123; flight_UA456]) ∧
  Home.banner (Home.resultView "a" [flight_AA123; flight_UA456]) = None ∧
  Home.notice (Home.resultView "a" [flight_AA123; flight_UA456]) = None ∧
  Home.cards (Home.resultView "a" [flight_AA123; flight_UA456]) ≠ [].
Proof.
  assert (Hq : Text.trim (Home.query (Home.setQuery "a" Home.initial))
               ≠ EmptyString) by discriminate.
  assert (Hr : Home.render (Home.after fetchFromSeed (Home.setQuery "a" Home.initial))
               = Some (Home.resultView "a" [flight_AA123; flight_UA456]))
    by (by vm_compute).
  destruct (search_shows_one fetchFromSeed (Home.setQuery "a" Home.initial)
              _ Hq Hr) as [_ [(H & _)|[(_ & H & _)|H]]].
  - by destruct H.
  - by destruct H.
  - by split_and!.
Defined.



Lemma isWhiteSpace_lowerUnit (c : ascii) :
  Text.isWhiteSpace (JS.lowerUnit c) = Text.isWhiteSpace c.
Proof.
  apply Bool.eqb_prop. revert c. apply forall_units. by vm_compute.
Qed.

Lemma matchFlights_none (q : string) (store : list Flight) :
  Forall (λ f, matchesQuery q f = false) store → matchFlights q store = [].
Proof.
  induction 1 as [|f store Hf _ IH]; [done|].
  by rewrite matchFlights_cons, Hf.
Qed.

Lemma white_space_no_match (q : string) (f : Flight) :
  Exists (λ c, Text.isWhiteSpace c = true) (Text.units q) →
  Forall (λ u, Text.isWhiteSpace u = false) (Text.units (flightNumber f)) →
  matchesQuery q f = false.
Proof.
  intros (c & Hc & Hws)%Exists_exists Hnumber.
  apply not_true_is_false. intros Hm%matchesQuery_occursIn%occursIn_units.
  rewrite !toLowerCase_units in Hm.
  assert (Hin : JS.lowerUnit c ∈ JS.lowerUnit <$> Text.units (flightNumber f))
    by by apply Hm, list_elem_of_fmap_2.
  apply list_elem_of_fmap in Hin as (u & Heq & Hu).
  rewrite Forall_forall in Hnumber. specialize (Hnumber u Hu).
  rewrite <- isWhiteSpace_lowerUnit, <- Heq, isWhiteSpace_lowerUnit in Hnumber.
  congruence.
Qed.

(** X18. The page guards with the trimmed query but sends the query as
    typed: over a store whose flight numbers hold no white space, a query
    that is not blank and holds a white-space unit anywhere (a space after
    the number, say) is searched, answered with status 200, and finds
    nothing; the page shows the notice and no card. *)
Theorem untrimmed_query_finds_nothing (store : list Flight)
    (fetch : string → Home.FetchResult) (st : Home.State) :
  Text.trim (Home.query st) ≠ EmptyString →
  Exists (λ c, Text.isWhiteSpace c = true) (Text.units (Home.query st)) →
  Forall (λ f, Forall (λ u, Text.isWhiteSpace u = false)
                      (Text.units (flightNumber f))) store →
  answeredBy store (searchURL (Home.query st))
  = Some (fetch (searchURL (Home.query st))) →
  fetch (searchURL (Home.query st)) = Home.Fulfilled 200 (Some (JArray [])) ∧
  Home.render (Home.after fetch st)
  = Some (Home.resultView (Home.query st) []).
Proof.
  intros Hq Hws Hstore Hfetch.
  assert (Hnone : matchFlights (Home.query st) store = []).
  { apply matchFlights_none. eapply Forall_impl; [exact Hstore|].
    intros f Hf. by apply white_space_no_match. }
  rewrite (after_answered store fetch st Hq Hfetch), Hnone.
  rewrite answeredBy_searchURL, Hnone in Hfetch by by apply trim_nonempty.
  injection Hfetch as <-. split; [done|]. apply (render_found _ []).
Qed.

Lemma untrimmed_query_finds_nothing_witness :
  Text.trim (Home.query (Home.setQuery "AA123 " Home.initial)) ≠ EmptyString ∧
  Exists (λ c, Text.isWhiteSpace c = true)
         (Text.units (Home.query (Home.setQuery "AA123 " Home.initial))) ∧
  Forall (λ f, Forall (λ u, Text.isWhiteSpace u = false)
                      (Text.units (flightNumber f))) MOCK_FLIGHTS ∧
  answeredBy MOCK_FLIGHTS (searchURL (Home.query (Home.setQuery "AA123 " Home.initial)))
  = Some (fetchFromSeed (searchURL (Home.query (Home.setQuery "AA123 " Home.initial)))) ∧
  Home.render (Home.after fetchFromSeed (Home.setQuery "AA123 " Home.initial))
  = Some (Home.resultView "AA123 " []).
Proof.
  assert (Hq : Text.trim (Home.query (Home.setQuery "AA123 " Home.initial))
               ≠ EmptyString) by discriminate.
  assert (Hws : Exists (λ c, Text.isWhiteSpace c = true)
                  (Text.units (Home.query (Home.setQuery "AA123 " Home.initial))))
    by (do 5 apply Exists_cons_tl; by apply Exists_cons_hd).
  assert (Hstore : Forall (λ f, Forall (λ u, Text.isWhiteSpace u = false)
                                  (Text.units (flightNumber f))) MOCK_FLIGHTS)
    by (repeat constructor).
  assert (Ha : answeredBy MOCK_FLIGHTS
                 (searchURL (Home.query (Home.setQuery "AA123 " Home.initial)))
               = Some (fetchFromSeed
                   (searchURL (Home.query (Home.setQuery "AA123 " Home.initial)))))
    by (by vm_compute).
  split_and!; [done..|].
  exact (proj2 (untrimmed_query_finds_nothing MOCK_FLIGHTS fetchFromSeed
                  (Home.setQuery "AA123 " Home.initial) Hq Hws Hstore Ha)).
Defined.

(** X19. A search forgets what the page held before: for a query that is
    not blank, the states the page goes through and the state it ends in
    depend on the query and on what [fetch] gives, not on the flights, the
    error or the flags of the state it starts from. *)
Theorem search_forgets_history (fetch : string → Home.FetchResult)
    (st st' : Home.State) :
  Home.query st = Home.query st' →
  Text.trim (Home.query st) ≠ EmptyString →
  Home.handleSearch fetch st = Home.handleSearch fetch st' ∧
  Home.after fetch st = Home.after fetch st'.
Proof.
  intros Hquery Hq.
  assert (Hq' : Text.trim (Home.query st') ≠ EmptyString) by by rewrite <- Hquery.
  destruct (handleSearch_searches fetch st Hq) as [-> ->].
  destruct (handleSearch_searches fetch st' Hq') as [-> ->].
  unfold Home.pending. by rewrite Hquery.
Qed.

Lemma search_forgets_history_witness :
  Home.query (Home.after fetchRefused (Home.setQuery "dl" Home.initial))
  = Home.query (Home.setQuery "dl" Home.initial) ∧
  Text.trim (Home.query (Home.after fetchRefused (Home.setQuery "dl" Home.initial)))
  ≠ EmptyString ∧
  Home.error (Home.after fetchRefused (Home.setQuery "dl" Home.initial))
  = Home.failureMessage ∧
  Home.after fetchFromSeed
    (Home.after fetchRefused (Home.setQuery "dl" Home.initial))
  = Home.after fetchFromSeed (Home.setQuery "dl" Home.initial).
Proof.
  assert (Hq : Text.trim (Home.query (Home.after fetchRefused
                   (Home.setQuery "dl" Home.initial))) ≠ EmptyString)
    by discriminate.
  split_and!; [reflexivity|exact Hq|reflexivity|].
  exact (proj2 (search_forgets_history fetchFromSeed
                  (Home.after fetchRefused (Home.setQuery "dl" Home.initial))
                  (Home.setQuery "dl" Home.initial) eq_refl Hq)).
Defined.
